(** * Shallow embedding of the hybrid recommendation engine
      ([backend/ml/recommender.py], class [MovieRecommender]).

    Modelling conventions.
    - Python floats (ratings, scores, vote averages) are exact rationals [Q];
      none of the properties below depends on rounding.  The slice sizes
      [int(n * 0.6)] and [int(n * 0.25)] equal [3n/5] and [n/4] exactly in
      IEEE doubles, so they are written with [Nat.div].
    - A SQL query without ORDER BY returns rows in table (list) order;
      [order_by(... .desc())] is a stable descending sort.
    - Python's [list.sort(key=..., reverse=True)] is the stable descending
      sort [sort_desc].
    - The JSON column [Movie.genres] is [genres_field]: NULL, a JSON array
      (already a Python list), or a JSON text whose [json.loads] either
      yields the list of genres or raises.
    - The numeric kernels of scikit-learn ([cosine_similarity],
      [TruncatedSVD(random_state=42)]) are section variables: floating
      point linear algebra is not embedded, everything around it is.
    - Writing a [ModelUpdateLog] row follows PostgreSQL: [VARCHAR(n)] and
      [INTEGER] limits, and a [json] column that refuses non-finite floats.
      Whether [explained_variance_ratio_] is finite is decided in exact
      arithmetic (a zero total variance), which IEEE doubles reproduce for
      ratings in half steps. *)

From Stdlib Require Import QArith Qround ZArith List Lia Sorted.
From stdpp Require Import base list strings pretty gmap.

Open Scope Z_scope.

(** ** Data model ([backend/models.py]) *)

Inductive genres_field :=
| GNull
| GList (gs : list string)
| GText (decoded : option (list string)).

Record Movie := mkMovie {
  movie_id : Z;
  genres : genres_field;
  vote_average : option Q;
  vote_count : option Z;
  popularity : option Q;
  runtime : option Z
}.

Record User := mkUser {
  user_id : Z;
  age : option Z;
  location : option string;
  (** JSON dict [{"Action": 1, "Horror": -1}] as its item list *)
  genre_preferences : option (list (string * Q))
}.

Record Rating := mkRating {
  r_user_id : Z;
  r_movie_id : Z;
  r_rating : Q;
  r_timestamp : Z
}.

Record Favorite := mkFavorite { f_user_id : Z; f_movie_id : Z }.

Record WatchlistItem := mkWatchlistItem { w_user_id : Z; w_movie_id : Z }.

(** [metrics] of a model update ([explained_variance_ratio] is a float
    summary of the factorisation and is not kept; whether it is finite
    decides whether the row can be written, see [stored_log_row]). *)
Record SvdMetrics := mkSvdMetrics {
  met_n_components : Z;
  met_n_users : nat;
  met_n_movies : nat
}.

Record ModelUpdateLog := mkModelUpdateLog {
  log_model_type : string;
  log_update_type : string;
  log_ratings_processed : nat;
  log_update_trigger : string;
  log_metrics : option SvdMetrics;
  log_success : bool;
  log_created_at : Z
}.

Record Database := mkDatabase {
  users : list User;
  movies : list Movie;
  ratings : list Rating;
  favorites : list Favorite;
  watchlist : list WatchlistItem;
  model_update_logs : list ModelUpdateLog
}.

(** ** Python helpers *)

Definition Qltb (x y : Q) : bool := negb (Qle_bool y x).

Definition z_in (x : Z) (l : list Z) : bool := existsb (Z.eqb x) l.
Definition s_in (x : string) (l : list string) : bool :=
  existsb (fun y => String.eqb x y) l.

(** [set(l)] of a list of strings, as a duplicate-free list. *)
Fixpoint py_set (l : list string) : list string :=
  match l with
  | [] => []
  | x :: t => if s_in x t then py_set t else x :: py_set t
  end.

(** Keys of a dict filled in list order: first occurrences, in order. *)
Definition dedup_first_z (l : list Z) : list Z :=
  rev (fold_left (fun acc x => if z_in x acc then acc else x :: acc) l []).

Fixpoint assoc_lookup {V} (k : string) (l : list (string * V)) : option V :=
  match l with
  | [] => None
  | (k', v) :: t => if String.eqb k k' then Some v else assoc_lookup k t
  end.

Definition q_or_zero (x : option Q) : Q :=
  match x with Some q => q | None => 0%Q end.

Section SortDesc.
Context {A K : Type} (key : A -> K) (ltb : K -> K -> bool).

(** Insert [x] after every element whose key is not smaller. *)
Fixpoint insert_desc (x : A) (l : list A) : list A :=
  match l with
  | [] => [x]
  | y :: t => if ltb (key y) (key x) then x :: y :: t else y :: insert_desc x t
  end.

(** [l.sort(key=key, reverse=True)]: stable descending sort. *)
Definition sort_desc (l : list A) : list A :=
  fold_left (fun acc x => insert_desc x acc) l [].
End SortDesc.

Definition sort_by_score {A} (l : list (A * Q)) : list (A * Q) :=
  sort_desc snd Qltb l.

(** Truthiness of [movie.genres]. *)
Definition genres_truthy (g : genres_field) : bool :=
  match g with
  | GNull => false
  | GList gs => negb (bool_decide (gs = []))
  | GText _ => true
  end.

(** [movie.genres if isinstance(movie.genres, list) else json.loads(movie.genres)];
    [None] when it raises. *)
Definition decode_genres (g : genres_field) : option (list string) :=
  match g with
  | GNull => None
  | GList gs => Some gs
  | GText d => d
  end.

(** ** Context extraction and re-ranking *)

Record Temporal := mkTemporal {
  hour : Z;
  day_of_week : Z;
  is_weekend : bool;
  time_period : string
}.

Record Context := mkContext {
  temporal : Temporal;
  recent_genres : list string;
  genre_saturation : list (string * Q);
  sequential_patterns : list Rating
}.

Definition _get_time_period (h : Z) : string :=
  if (5 <=? h) && (h <? 12) then "morning"
  else if (12 <=? h) && (h <? 17) then "afternoon"
  else if (17 <=? h) && (h <? 21) then "evening"
  else "night".

Definition time_genre_preferences (p : string) : list string :=
  if String.eqb p "morning" then ["Animation"; "Family"; "Comedy"; "Adventure"]
  else if String.eqb p "afternoon" then ["Action"; "Adventure"; "Comedy"; "Science Fiction"]
  else if String.eqb p "evening" then ["Drama"; "Thriller"; "Mystery"; "Crime"]
  else if String.eqb p "night" then ["Horror"; "Thriller"; "Mystery"; "Science Fiction"]
  else [].

Definition temporal_score (time_preferences preferred_genres : list string)
    (weekend : bool) (m : Movie) : Q :=
  if genres_truthy (genres m) then
    match decode_genres (genres m) with
    | None => 0%Q
    | Some gs =>
        let s := fold_left (fun acc g =>
                   let acc := if s_in g time_preferences then (acc + 1)%Q else acc in
                   if s_in g preferred_genres then (acc + (1#2))%Q else acc) gs 0%Q in
        match runtime m with
        | Some r =>
            if r =? 0 then s
            else if weekend && (120 <? r) then (s + (1#2))%Q
            else if negb weekend && (r <=? 120) then (s + (3#10))%Q
            else s
        | None => s
        end
    end
  else 0%Q.

Definition _apply_temporal_filtering (ms : list Movie) (ctx : Context) : list Movie :=
  let weekend := is_weekend (temporal ctx) in
  let preferred_genres :=
    if weekend then ["Action"; "Adventure"; "Science Fiction"; "Fantasy"; "Drama"]
    else ["Comedy"; "Animation"; "Romance"; "Documentary"] in
  let time_preferences := time_genre_preferences (time_period (temporal ctx)) in
  map fst (sort_by_score
    (map (fun m => (m, temporal_score time_preferences preferred_genres weekend m)) ms)).

Definition diversity_score (recent : list string) (saturation : list (string * Q))
    (boost_factor : Q) (m : Movie) : Q :=
  if genres_truthy (genres m) then
    match decode_genres (genres m) with
    | None => 0%Q
    | Some gs =>
        let movie_genre_set := py_set gs in
        let new_genres := List.filter (fun g => negb (s_in g recent)) movie_genre_set in
        let s := (inject_Z (Z.of_nat (length new_genres)) * boost_factor)%Q in
        let s := fold_left (fun acc g =>
                   match assoc_lookup g saturation with
                   | Some sat => (acc - sat * (1#2))%Q
                   | None => acc
                   end) movie_genre_set s in
        if (0 <? Z.of_nat (length new_genres)) then (s + 1)%Q else s
    end
  else 0%Q.

Definition _apply_diversity_boost_with (ms : list Movie) (ctx : Context) (boost_factor : Q)
    : list Movie :=
  if bool_decide (recent_genres ctx = []) then ms
  else map fst (sort_by_score
    (map (fun m => (m, diversity_score (recent_genres ctx) (genre_saturation ctx)
                         boost_factor m)) ms)).

(** Default [boost_factor = 1.3]. *)
Definition _apply_diversity_boost (ms : list Movie) (ctx : Context) : list Movie :=
  _apply_diversity_boost_with ms ctx (13#10).

(** ** Database reads shared by the generators *)

Definition find_user (db : Database) (uid : Z) : option User :=
  find (fun u => user_id u =? uid) (users db).

Definition user_ratings_of (db : Database) (uid : Z) : list Rating :=
  List.filter (fun r => r_user_id r =? uid) (ratings db).
Definition user_favorites_of (db : Database) (uid : Z) : list Favorite :=
  List.filter (fun f => f_user_id f =? uid) (favorites db).
Definition user_watchlist_of (db : Database) (uid : Z) : list WatchlistItem :=
  List.filter (fun w => w_user_id w =? uid) (watchlist db).

(** [_get_excluded_movie_ids]: movies the user rated 2 stars or less. *)
Definition _get_excluded_movie_ids (db : Database) (uid : Z) : list Z :=
  map r_movie_id (List.filter (fun r => Qle_bool (r_rating r) 2) (user_ratings_of db uid)).

(** Ids the user rated, favorited or put on the watchlist. *)
Definition interacted_movie_ids (db : Database) (uid : Z) : list Z :=
  map r_movie_id (user_ratings_of db uid) ++ map f_movie_id (user_favorites_of db uid)
  ++ map w_movie_id (user_watchlist_of db uid).

(** [Movie.vote_count >= k] (NULL fails the comparison). *)
Definition vote_count_at_least (k : Z) (m : Movie) : bool :=
  match vote_count m with Some c => k <=? c | None => false end.

(** [movie_dict = {m.id: m for m in movies}; [movie_dict[mid] for mid in ids if mid in movie_dict]] *)
Definition order_by_ids (found : list Movie) (ids : list Z) : list Movie :=
  flat_map (fun i => match find (fun m => movie_id m =? i) found with
                     | Some m => [m] | None => [] end) ids.

Definition fetch_movies (db : Database) (ids : list Z) : list Movie :=
  List.filter (fun m => z_in (movie_id m) ids) (movies db).

(** [ORDER BY vote_average DESC]: PostgreSQL puts NULLs first. *)
Definition vote_average_ltb (x y : option Q) : bool :=
  match x, y with
  | None, _ => false
  | Some _, None => true
  | Some a, Some b => Qltb a b
  end.

(** [_get_popular_movies(n, exclude_user_id)] *)
Definition _get_popular_movies (db : Database) (n : nat) (exclude_user_id : Z) : list Movie :=
  let query := List.filter (vote_count_at_least 100) (movies db) in
  let query :=
    if negb (exclude_user_id =? 0) then
      let seen_ids := interacted_movie_ids db exclude_user_id
                      ++ _get_excluded_movie_ids db exclude_user_id in
      if bool_decide (seen_ids = []) then query
      else List.filter (fun m => negb (z_in (movie_id m) seen_ids)) query
    else query in
  firstn n (sort_desc vote_average vote_average_ltb query).

(** [total_interactions] of [_is_cold_start_user]. *)
Definition total_interactions (db : Database) (uid : Z) : nat :=
  length (user_ratings_of db uid) + length (user_favorites_of db uid)
  + length (user_watchlist_of db uid).

(** ** Disliked-genre filter *)

Definition disliked_genres (prefs : list (string * Q)) : list string :=
  map fst (List.filter (fun p => Qltb (snd p) 0) prefs).

(** The per-movie test of the filter loop: kept unless its (parsed) genres
    meet a disliked genre. *)
Definition keep_movie (disliked : list string) (m : Movie) : bool :=
  if genres_truthy (genres m) then
    match decode_genres (genres m) with
    | None => true
    | Some gs => negb (existsb (fun g => s_in g disliked) (py_set gs))
    end
  else true.

Definition _filter_disliked_genres (db : Database) (ms : list Movie) (uid : Z) : list Movie :=
  match find_user db uid with
  | None => ms
  | Some u =>
      match genre_preferences u with
      | None | Some [] => ms
      | Some prefs =>
          let disliked := disliked_genres prefs in
          if bool_decide (disliked = []) then ms
          else match List.filter (keep_movie disliked) ms with
               | [] => ms
               | filtered => filtered
               end
      end
  end.

(** ** Context extraction ([_get_contextual_features]); [now] is the wall
    clock: the hour and the weekday (0 = Monday). *)

Fixpoint count_genre (g : string) (l : list (string * nat)) : list (string * nat) :=
  match l with
  | [] => [(g, 1%nat)]
  | (g', c) :: t => if String.eqb g g' then (g', S c) :: t else (g', c) :: count_genre g t
  end.

Definition add_recent_genre (acc : list string * list (string * nat)) (g : string)
    : list string * list (string * nat) :=
  ((if s_in g acc.1 then acc.1 else acc.1 ++ [g]), count_genre g acc.2).

Definition _get_contextual_features (db : Database) (uid : Z) (now_hour now_weekday : Z)
    : Context :=
  let temp := mkTemporal now_hour now_weekday (5 <=? now_weekday) (_get_time_period now_hour) in
  let recent_ratings := firstn 10 (sort_desc r_timestamp Z.ltb (user_ratings_of db uid)) in
  match recent_ratings with
  | [] => mkContext temp [] [] []
  | _ =>
      let recent_movies := fetch_movies db (map r_movie_id recent_ratings) in
      let '(rg, genre_count) :=
        fold_left (fun acc m =>
          if genres_truthy (genres m) then
            match decode_genres (genres m) with
            | Some gs => fold_left add_recent_genre gs acc
            | None => acc
            end
          else acc) recent_movies ([], []) in
      let total_recent := length recent_movies in
      let saturation :=
        if (0 <? total_recent)%nat then
          map (fun p => (p.1, (inject_Z (Z.of_nat p.2) / inject_Z (Z.of_nat total_recent))%Q))
              genre_count
        else [] in
      mkContext temp rg saturation (firstn 5 recent_ratings)
  end.

(** ** Candidate generators without numeric kernels *)

(** [get_genre_based_recommendations(user_id, n)] *)
Definition get_genre_based_recommendations (db : Database) (uid : Z) (n : nat)
    : list Movie :=
  match find_user db uid with
  | None => _get_popular_movies db n uid
  | Some u =>
      match genre_preferences u with
      | None | Some [] => _get_popular_movies db n uid
      | Some prefs =>
          let preferred_genres := map fst (List.filter (fun p => Qltb 0 (snd p)) prefs) in
          if bool_decide (preferred_genres = []) then _get_popular_movies db n uid
          else
            let excluded_ids := _get_excluded_movie_ids db uid in
            let all_movies := List.filter (vote_count_at_least 50) (movies db) in
            let scored_movies :=
              flat_map (fun m =>
                if z_in (movie_id m) excluded_ids then []
                else
                  (* [movie.genres if list else json.loads(..) if movie.genres else []] *)
                  let gs := match genres m with
                            | GList gs => Some gs
                            | GNull => Some []
                            | GText d => d
                            end in
                  match gs with
                  | None => []
                  | Some gs =>
                      let overlap := length (List.filter (fun g => s_in g preferred_genres) (py_set gs)) in
                      if (0 <? overlap)%nat then
                        [(m, (inject_Z (Z.of_nat overlap) * 3 + q_or_zero (vote_average m)
                              + q_or_zero (popularity m) / 100)%Q)]
                      else []
                  end) all_movies in
            map fst (firstn n (sort_by_score scored_movies))
      end
  end.

(** [movie_scores[movie_id]['count'] += 1; ['total_rating'] += rating] *)
Fixpoint bump_movie_score (mid : Z) (x : Q) (l : list (Z * (nat * Q))) : list (Z * (nat * Q)) :=
  match l with
  | [] => [(mid, (1%nat, x))]
  | (k, (c, t)) :: rest =>
      if k =? mid then (k, (S c, (t + x)%Q)) :: rest
      else (k, (c, t)) :: bump_movie_score mid x rest
  end.

(** [User.age.between(age - 5, age + 5)] and [User.location == location] *)
Definition demographic_match (u v : User) : bool :=
  negb (user_id v =? user_id u) &&
  match age u with
  | Some a => if a =? 0 then true
              else match age v with Some b => (a - 5 <=? b) && (b <=? a + 5) | None => false end
  | None => true
  end &&
  match location u with
  | Some l => if String.eqb l "" then true
              else match location v with Some l' => String.eqb l' l | None => false end
  | None => true
  end.

(** [get_demographic_recommendations(user_id, n)] *)
Definition get_demographic_recommendations (db : Database) (uid : Z) (n : nat) : list Movie :=
  match find_user db uid with
  | None => _get_popular_movies db n uid
  | Some u =>
      let similar_users := firstn 20 (List.filter (demographic_match u) (users db)) in
      match similar_users with
      | [] => _get_popular_movies db n uid
      | _ =>
          let similar_user_ids := map user_id similar_users in
          let top_rated := List.filter (fun r => z_in (r_user_id r) similar_user_ids
                                            && Qle_bool 4 (r_rating r)) (ratings db) in
          let movie_scores :=
            fold_left (fun acc r => bump_movie_score (r_movie_id r) (r_rating r) acc) top_rated [] in
          let excluded_ids := _get_excluded_movie_ids db uid in
          let scored_movies :=
            flat_map (fun p =>
              let '(mid, (c, t)) := p in
              if z_in mid excluded_ids then []
              else let avg_rating := (t / inject_Z (Z.of_nat c))%Q in
                   [(mid, (inject_Z (Z.of_nat c) * avg_rating)%Q)]) movie_scores in
          let top_movie_ids := map fst (firstn n (sort_by_score scored_movies)) in
          match fetch_movies db top_movie_ids with
          | [] => _get_popular_movies db n uid
          | found => order_by_ids found top_movie_ids
          end
      end
  end.

(** [genre_scores[genre] += weight] on a dict kept in insertion order *)
Fixpoint add_genre_weight (g : string) (w : Q) (l : list (string * Q)) : list (string * Q) :=
  match l with
  | [] => [(g, w)]
  | (g', s) :: t => if String.eqb g g' then (g', (s + w)%Q) :: t
                    else (g', s) :: add_genre_weight g w t
  end.

Definition liked_with_weight (liked : list (Z * Q)) (mid : Z) (w : Q) : list (Z * Q) :=
  if existsb (fun p => p.1 =? mid) liked then liked else liked ++ [(mid, w)].

(** [get_content_based_recommendations(user_id, n)] *)
Definition get_content_based_recommendations (db : Database) (uid : Z) (n : nat)
    : list Movie :=
  let urs := user_ratings_of db uid in
  let liked := map (fun r => (r_movie_id r, 1%Q)) (List.filter (fun r => Qle_bool 4 (r_rating r)) urs) in
  let liked := fold_left (fun acc f => liked_with_weight acc (f_movie_id f) (4#5))
                 (user_favorites_of db uid) liked in
  let liked := fold_left (fun acc w => liked_with_weight acc (w_movie_id w) (1#2))
                 (user_watchlist_of db uid) liked in
  match liked with
  | [] => _get_popular_movies db n uid
  | _ =>
      let movie_ids := map fst liked in
      let liked_movies := fetch_movies db movie_ids in
      let genre_scores :=
        fold_left (fun acc m =>
          let weight := match find (fun p => p.1 =? movie_id m) liked with
                        | Some p => p.2 | None => 0%Q end in
          if genres_truthy (genres m) then
            match decode_genres (genres m) with
            | Some gs => fold_left (fun acc g => add_genre_weight g weight acc) gs acc
            | None => acc
            end
          else acc) liked_movies [] in
      let top_genre_names := map fst (firstn 3 (sort_by_score genre_scores)) in
      match top_genre_names with
      | [] => _get_popular_movies db n uid
      | _ =>
          let excluded_ids := _get_excluded_movie_ids db uid in
          let all_movies := List.filter (vote_count_at_least 50) (movies db) in
          let seen_movie_ids := movie_ids ++ map r_movie_id urs in
          let recs :=
            flat_map (fun m =>
              if negb (z_in (movie_id m) seen_movie_ids) && negb (z_in (movie_id m) excluded_ids)
              then
                (* [json.loads(movie.genres) if str else movie.genres]; [set(None)] raises *)
                match decode_genres (genres m) with
                | None => []
                | Some gs =>
                    let overlap := length (List.filter (fun g => s_in g top_genre_names) (py_set gs)) in
                    if (0 <? overlap)%nat then
                      [(m, (inject_Z (Z.of_nat overlap) * 2 + q_or_zero (vote_average m) / 2)%Q)]
                    else []
                end
              else []) all_movies in
          map fst (firstn n (sort_by_score recs))
      end
  end.

(** ** Recommender state: the database and the cached SVD model *)

Record SvdFit := mkSvdFit { fit_n_components : Z }.

Record Store := mkStore {
  db : Database;
  _svd_model : option SvdFit;
  _svd_user_factors : option (list (list Q));
  _svd_item_factors : option (list (list Q));
  _svd_movie_ids : option (list Z);
  _svd_user_ids : option (list Z);
  (** [getattr(self, 'incremental_update_threshold', 50)] *)
  incremental_update_threshold : option Z
}.

(** Constants of [MovieRecommender.__init__]. *)
Definition cold_start_threshold : nat := 3.
Definition svd_components : Z := 20.
Definition svd_min_ratings : nat := 10.

Definition St (A : Type) : Type := Store -> A * Store.
Definition st_ret {A} (x : A) : St A := fun s => (x, s).
Definition st_bind {A B} (m : St A) (k : A -> St B) : St B :=
  fun s => let '(x, s') := m s in k x s'.
Definition st_read {A} (f : Database -> A) : St A := fun s => (f (db s), s).

Notation "'let!' x ':=' m 'in' k" := (st_bind m (fun x => k))
  (at level 200, x name, m at level 100, k at level 200).

(** [_is_cold_start_user(user_id)] *)
Definition _is_cold_start_user (uid : Z) : St bool :=
  let! ratings_count := st_read (fun d => length (user_ratings_of d uid)) in
  let! favorites_count := st_read (fun d => length (user_favorites_of d uid)) in
  let! watchlist_count := st_read (fun d => length (user_watchlist_of d uid)) in
  st_ret (ratings_count + favorites_count + watchlist_count <? cold_start_threshold)%nat.

(** [invalidate_svd_cache()] *)
Definition invalidate_svd_cache : St unit :=
  fun s => (tt, mkStore (db s) None None None None None (incremental_update_threshold s)).

Definition set_svd_ids (uids mids : list Z) (s : Store) : Store :=
  mkStore (db s) (_svd_model s) (_svd_user_factors s) (_svd_item_factors s)
          (Some mids) (Some uids) (incremental_update_threshold s).

Definition set_svd_fit (fit : SvdFit) (uf itf : list (list Q)) (s : Store) : Store :=
  mkStore (db s) (Some fit) (Some uf) (Some itf)
          (_svd_movie_ids s) (_svd_user_ids s) (incremental_update_threshold s).

(** [list.index(x)], [None] when absent. *)
Fixpoint index_of_from (x : Z) (l : list Z) (i : nat) : option nat :=
  match l with
  | [] => None
  | y :: t => if x =? y then Some i else index_of_from x t (S i)
  end.

Definition index_of (x : Z) (l : list Z) : option nat := index_of_from x l 0.

(** Cell of a [defaultdict] matrix filled by [d[a][b] = value] over the
    ratings (later rows overwrite), [fillna(0)] elsewhere. *)
Definition rating_cell (all : list Rating) (uid mid : Z) : Q :=
  fold_left (fun acc r => if (r_user_id r =? uid) && (r_movie_id r =? mid) then r_rating r else acc)
            all 0%Q.

(** Columns of [pd.DataFrame(d).T] for a dict of dicts [d] filled by the
    assignments [d[u][k] = ...] listed as [cells]: pandas takes the union of
    the inner dicts' keys without sorting, the inner dicts in the order of
    their outer keys [rows], each in insertion order. *)
Definition frame_columns (rows : list Z) (cells : list (Z * Z)) : list Z :=
  dedup_first_z (flat_map (fun u => map snd (List.filter (fun p => p.1 =? u) cells)) rows).

Definition dot (u v : list Q) : Q :=
  fold_left (fun acc p => (acc + p.1 * p.2)%Q) (combine u v) 0%Q.

Fixpoint add_score_z (k : Z) (x : Q) (l : list (Z * Q)) : list (Z * Q) :=
  match l with
  | [] => [(k, x)]
  | (k', s) :: t => if k =? k' then (k', (s + x)%Q) :: t else (k', s) :: add_score_z k x t
  end.

Section Kernels.
(** [sklearn.metrics.pairwise.cosine_similarity] on the rows of a matrix. *)
Variable cosine_similarity : list (list Q) -> list (list Q).
(** [TruncatedSVD(n_components, random_state=42).fit_transform] on the
    user x movie matrix: the user factors and [components_.T]; [None]
    when scikit-learn raises. *)
Variable truncated_svd : Z -> list (list Q) -> option (list (list Q) * list (list Q)).
(** [EmbeddingRecommender(db).get_embedding_recommendations] of the
    optional deep-learning subsystem; [None] when it is unavailable or
    raises. *)
Variable embedding_recommender : Database -> Z -> nat -> option (list Movie).

(** [get_item_based_recommendations(user_id, n)] *)
Definition get_item_based_recommendations (d : Database) (uid : Z) (n : nat) : list Movie :=
  let liked :=
    match List.filter (fun r => Qle_bool 4 (r_rating r)) (user_ratings_of d uid) with
    | [] => match user_favorites_of d uid with
            | [] => None
            | fs => Some (map f_movie_id fs)
            end
    | rs => Some (map r_movie_id rs)
    end in
  match liked with
  | None => _get_popular_movies d n uid
  | Some liked_movie_ids =>
      let all_ratings := ratings d in
      if (length all_ratings <? 10)%nat then _get_popular_movies d n uid
      else
        let item_index := dedup_first_z (map r_movie_id all_ratings) in
        let user_cols := dedup_first_z (map r_user_id all_ratings) in
        if (length item_index <? 2)%nat then _get_popular_movies d n uid
        else
          let matrix := map (fun mid => map (fun u => rating_cell all_ratings u mid) user_cols)
                            item_index in
          let item_similarity := cosine_similarity matrix in
          let excluded_ids := _get_excluded_movie_ids d uid in
          let seen_movie_ids := liked_movie_ids in
          let movie_scores :=
            fold_left (fun acc mid =>
              match index_of mid item_index with
              | None => acc
              | Some j =>
                  let column := imap (fun i sid => (sid, nth j (nth i item_similarity []) 0%Q))
                                     item_index in
                  (* [sort_values(ascending=False)[1:21]]; pandas breaks ties its own way,
                   modelled by the stable sort *)
                  let similar_movies := firstn 20 (skipn 1 (sort_by_score column)) in
                  fold_left (fun acc p =>
                    if negb (z_in p.1 seen_movie_ids) && negb (z_in p.1 excluded_ids)
                    then add_score_z p.1 p.2 acc else acc) similar_movies acc
              end) liked_movie_ids [] in
          let top_movie_ids := map fst (firstn n (sort_by_score movie_scores)) in
          order_by_ids (fetch_movies d top_movie_ids) top_movie_ids
  end.

(** [_build_svd_model()]: [true] when a model was cached.  Rows (users) of
    the DataFrame follow first appearance in the ratings, columns (movies)
    are [frame_columns]. *)
Definition _build_svd_model : St bool :=
  fun s =>
    let all_ratings := ratings (db s) in
    if (length all_ratings <? svd_min_ratings)%nat then (false, s)
    else
      let uids := dedup_first_z (map r_user_id all_ratings) in
      let mids := frame_columns uids (map (fun r => (r_user_id r, r_movie_id r)) all_ratings) in
      if (length uids <? 2)%nat then (false, s)
      else
        let s1 := set_svd_ids uids mids s in
        let n_components :=
          Z.min svd_components (Z.min (Z.of_nat (length uids)) (Z.of_nat (length mids)) - 1) in
        if n_components <? 2 then (false, s1)
        else
          let matrix := map (fun u => map (fun mid => rating_cell all_ratings u mid) mids) uids in
          match truncated_svd n_components matrix with
          | None => (false, s1)
          | Some (uf, itf) => (true, set_svd_fit (mkSvdFit n_components) uf itf s1)
          end.

(** [get_svd_recommendations(user_id, n)].  A cached model always comes
    with its id lists, so [self._svd_user_ids] is never [None] here. *)
Definition get_svd_recommendations (uid : Z) (n : nat) : St (list Movie) :=
  let! ok := (fun s => match _svd_model s with
                       | None => _build_svd_model s
                       | Some _ => (true, s)
                       end) in
  if negb ok then st_read (fun d => get_item_based_recommendations d uid n)
  else fun s =>
    let user_ids := default [] (_svd_user_ids s) in
    match index_of uid user_ids with
    | None => (get_item_based_recommendations (db s) uid n, s)
    | Some user_idx =>
        let user_factors := nth user_idx (default [] (_svd_user_factors s)) [] in
        let predicted_ratings := map (dot user_factors) (default [] (_svd_item_factors s)) in
        let seen_movie_ids := interacted_movie_ids (db s) uid
                              ++ _get_excluded_movie_ids (db s) uid in
        let movie_scores :=
          flat_map (fun p => if z_in p.2 seen_movie_ids then []
                             else [(p.2, nth p.1 predicted_ratings 0%Q)])
                   (imap pair (default [] (_svd_movie_ids s))) in
        let top_movie_ids := map fst (firstn n (sort_by_score movie_scores)) in
        (order_by_ids (fetch_movies (db s) top_movie_ids) top_movie_ids, s)
    end.

(** [get_embedding_recommendations(user_id, n)] *)
Definition get_embedding_recommendations (uid : Z) (n : nat) : St (list Movie) :=
  fun s =>
    match embedding_recommender (db s) uid n with
    | Some recs => (_filter_disliked_genres (db s) recs uid, s)
    | None => get_svd_recommendations uid n s
    end.
(** ** Hybrid composition ([get_hybrid_recommendations]) *)

(** [if movie.id not in seen_ids and len(recs) < cap: recs.append(movie)];
    [seen_ids] is always the set of ids of [recs]. *)
Definition add_new (cap : nat) (recs : list Movie) (m : Movie) : list Movie :=
  if negb (z_in (movie_id m) (map movie_id recs)) && (length recs <? cap)%nat
  then recs ++ [m] else recs.

(** The primary slice: [if movie.id not in seen_ids: recs.append(movie)]. *)
Definition add_new_uncapped (recs : list Movie) (m : Movie) : list Movie :=
  if negb (z_in (movie_id m) (map movie_id recs)) then recs ++ [m] else recs.

(** Round-robin fill: [for movie in all_remaining: if len >= n: break; ...] *)
Definition fill_remaining (n : nat) (recs pool : list Movie) : list Movie :=
  if (length recs <? n)%nat then
    let all_remaining := List.filter (fun m => negb (z_in (movie_id m) (map movie_id recs))) pool in
    fold_left (fun acc m =>
      if (n <=? length acc)%nat then acc
      else if negb (z_in (movie_id m) (map movie_id acc)) then acc ++ [m] else acc)
      all_remaining recs
  else recs.

(** Item-based and content slices, then the fill. *)
Definition warm_tail (n : nat) (svd_movies item_movies content_movies : list Movie)
    (item_weight content_weight : nat) (recs : list Movie) : list Movie :=
  let recs := fold_left (add_new n) (firstn item_weight item_movies) recs in
  let recs := fold_left (add_new n) (firstn content_weight content_movies) recs in
  fill_remaining n recs (svd_movies ++ item_movies ++ content_movies).

Definition svd_weight (n : nat) : nat := (3 * n / 5)%nat.
Definition item_weight (n : nat) : nat := (n / 4)%nat.
Definition content_weight (n : nat) : nat := (n - svd_weight n - item_weight n)%nat.

(** Standard weighting without embeddings: 60% / 25% / 15%. *)
Definition compose_warm (n : nat) (svd_movies item_movies content_movies : list Movie)
    : list Movie :=
  let recs := fold_left add_new_uncapped (firstn (svd_weight n) svd_movies) [] in
  warm_tail n svd_movies item_movies content_movies (item_weight n) (content_weight n) recs.

(** Weighting with embeddings: 40% / 30% / 20% / 10%. *)
Definition compose_warm_embeddings (n : nat)
    (embedding_movies svd_movies item_movies content_movies : list Movie) : list Movie :=
  let embedding_weight := (2 * n / 5)%nat in
  let svd_w := (3 * n / 10)%nat in
  let item_w := (n / 5)%nat in
  let content_w := (n - embedding_weight - svd_w - item_w)%nat in
  let recs := fold_left add_new_uncapped (firstn embedding_weight embedding_movies) [] in
  let recs := fold_left (add_new n) (firstn svd_w svd_movies) recs in
  warm_tail n svd_movies item_movies content_movies item_w content_w recs.

Definition z_truthy (x : option Z) : bool :=
  match x with Some a => negb (a =? 0) | None => false end.
Definition str_truthy (x : option string) : bool :=
  match x with Some l => negb (String.eqb l "") | None => false end.
Definition prefs_truthy (x : option (list (string * Q))) : bool :=
  match x with Some (_ :: _) => true | _ => false end.

(** The cold-start branch. *)
Definition cold_start_recommendations (d : Database) (u : option User) (uid : Z) (n : nat)
    (context : option Context) : list Movie :=
  let recs :=
    match u with
    | Some usr => if prefs_truthy (genre_preferences usr)
                  then fold_left (add_new n) (get_genre_based_recommendations d uid n) []
                  else []
    | None => []
    end in
  let recs :=
    match u with
    | Some usr =>
        if (length recs <? n)%nat && (z_truthy (age usr) || str_truthy (location usr))
        then fold_left (add_new n) (get_demographic_recommendations d uid (n - length recs)) recs
        else recs
    | None => recs
    end in
  let recs :=
    if (length recs <? n)%nat
    then fold_left (add_new n) (_get_popular_movies d (n - length recs) uid) recs
    else recs in
  let recs :=
    match context with
    | Some c => if (0 <? length recs)%nat then _apply_temporal_filtering recs c else recs
    | None => recs
    end in
  _filter_disliked_genres d recs uid.

(** [get_hybrid_recommendations(user_id, n, use_context, use_embeddings)];
    [now_hour] and [now_weekday] are read from [datetime.now()]. *)
Definition get_hybrid_recommendations (uid : Z) (n : nat) (use_context use_embeddings : bool)
    (now_hour now_weekday : Z) : St (list Movie) :=
  let! u := st_read (fun d => find_user d uid) in
  let! context := st_read (fun d =>
    if use_context then Some (_get_contextual_features d uid now_hour now_weekday) else None) in
  let! is_cold_start := _is_cold_start_user uid in
  if is_cold_start then
    st_read (fun d => cold_start_recommendations d u uid n context)
  else
    let! hybrid :=
      (if use_embeddings then
         let! embedding_movies := get_embedding_recommendations uid n in
         let! svd_movies := get_svd_recommendations uid n in
         let! item_movies := st_read (fun d => get_item_based_recommendations d uid n) in
         let! content_movies := st_read (fun d => get_content_based_recommendations d uid n) in
         st_ret (compose_warm_embeddings n embedding_movies svd_movies item_movies content_movies)
       else
         let! svd_movies := get_svd_recommendations uid n in
         let! item_movies := st_read (fun d => get_item_based_recommendations d uid n) in
         let! content_movies := st_read (fun d => get_content_based_recommendations d uid n) in
         st_ret (compose_warm n svd_movies item_movies content_movies)) in
    let hybrid :=
      match context with
      | Some c => _apply_diversity_boost (_apply_temporal_filtering hybrid c) c
      | None => hybrid
      end in
    let! filtered := st_read (fun d => _filter_disliked_genres d hybrid uid) in
    st_ret (firstn n filtered).
End Kernels.

(** ** Continuous learning ([incremental_update]) *)

(** The returned dict; [metrics = {}] is [None], and [error] tells whether
    the ['error'] key (an exception caught by the method) is present. *)
Record UpdateResult := mkUpdateResult {
  updated : bool;
  update_type : option string;
  reason : option string;
  metrics : option SvdMetrics;
  error : bool
}.

Definition set_logs (logs : list ModelUpdateLog) (s : Store) : Store :=
  let d := db s in
  mkStore (mkDatabase (users d) (movies d) (ratings d) (favorites d) (watchlist d) logs)
          (_svd_model s) (_svd_user_factors s) (_svd_item_factors s)
          (_svd_movie_ids s) (_svd_user_ids s) (incremental_update_threshold s).

Definition update_threshold (s : Store) : Z := default 50 (incremental_update_threshold s).

(** The latest successful [svd] entry of the Model Update Log. *)
Definition last_successful_update (d : Database) : option ModelUpdateLog :=
  head (sort_desc log_created_at Z.ltb
          (List.filter (fun l => String.eqb (log_model_type l) "svd" && log_success l)
                  (model_update_logs d))).

Definition new_ratings_count (d : Database) : nat :=
  match last_successful_update d with
  | Some l => length (List.filter (fun r => log_created_at l <? r_timestamp r) (ratings d))
  | None => length (ratings d)
  end.

(** ** Writing a Model Update Log row *)

Definition is_nul (c : Ascii.ascii) : bool := Ascii.eqb c Ascii.zero.
Definition is_space (c : Ascii.ascii) : bool := Ascii.eqb c (Ascii.ascii_of_nat 32).

(** A value assigned to a PostgreSQL [VARCHAR(n)] column: a longer value is
    an error unless its excess characters are all spaces, which are cut
    off; psycopg2 refuses a string holding a NUL character.  One [ascii]
    stands for one character. *)
Definition varchar_value (n : nat) (v : string) : option string :=
  let cs := String.list_ascii_of_string v in
  if existsb is_nul cs then None
  else if (length cs <=? n)%nat then Some v
  else if forallb is_space (drop n cs) then Some (String.string_of_list_ascii (take n cs))
  else None.

(** Largest value of a PostgreSQL [INTEGER] column. *)
Definition pg_integer_max : Z := 2147483647.

(** Column [mid] of the user x movie matrix of [_build_svd_model] is
    constant over the rows [uids]. *)
Definition column_constant (all : list Rating) (uids : list Z) (mid : Z) : bool :=
  forallb (fun u => Qeq_bool (rating_cell all u mid) (rating_cell all (hd 0 uids) mid)) uids.

(** [float(svd.explained_variance_ratio_.sum())] is finite.  scikit-learn
    divides the variances of the transformed columns by the total variance
    of the columns of the matrix; that total is zero exactly when every
    column is constant, and the ratio is then NaN or infinite. *)
Definition explained_variance_ratio_finite (all : list Rating) : bool :=
  let uids := dedup_first_z (map r_user_id all) in
  let mids := frame_columns uids (map (fun r => (r_user_id r, r_movie_id r)) all) in
  negb (forallb (column_constant all uids) mids).

(** The [metrics] dict as a [json] value: [json.dumps] writes a non-finite
    float as [NaN] or [Infinity], which PostgreSQL's [json] type refuses. *)
Definition metrics_json_ok (all : list Rating) (m : option SvdMetrics) : bool :=
  match m with
  | None => true
  | Some _ => explained_variance_ratio_finite all
  end.

(** The row [self.db.add(log_entry); self.db.commit()] stores, or [None]
    when the commit raises; [all] are the ratings the model was built from. *)
Definition stored_log_row (all : list Rating) (e : ModelUpdateLog) : option ModelUpdateLog :=
  match varchar_value 50 (log_model_type e), varchar_value 50 (log_update_type e),
        varchar_value 100 (log_update_trigger e) with
  | Some mt, Some ut, Some tr =>
      if (Z.of_nat (log_ratings_processed e) <=? pg_integer_max) && metrics_json_ok all (log_metrics e)
      then Some (mkModelUpdateLog mt ut (log_ratings_processed e) tr (log_metrics e)
                   (log_success e) (log_created_at e))
      else None
  | _, _, _ => None
  end.

(** [metrics] after a rebuild: filled in when [success and self._svd_model]. *)
Definition update_metrics (success : bool) (s : Store) : option SvdMetrics :=
  match success, _svd_model s with
  | true, Some fit =>
      Some (mkSvdMetrics (fit_n_components fit)
              (length (default [] (_svd_user_ids s)))
              (length (default [] (_svd_movie_ids s))))
  | _, _ => None
  end.

Section Lifecycle.
Variable truncated_svd : Z -> list (list Q) -> option (list (list Q) * list (list Q)).

(** [incremental_update(user_id, movie_id, rating)]; [now] is the
    [created_at] the database gives the new log row.  When the commit
    raises, the [except] branch returns the initial dict with ['error'];
    the cache has been invalidated and rebuilt by then, and no row is
    written. *)
Definition incremental_update (uid mid : Z) (rating : Q) (now : Z) : St UpdateResult :=
  fun s =>
    let threshold := update_threshold s in
    let count := new_ratings_count (db s) in
    if threshold <=? Z.of_nat count then
      let '(_, s1) := invalidate_svd_cache s in
      let '(success, s2) := _build_svd_model truncated_svd s1 in
      let mets := update_metrics success s2 in
      let log_entry :=
        mkModelUpdateLog "svd" "warm_start_rebuild" count
          ("threshold_reached_" +:+ pretty threshold) mets success now in
      match stored_log_row (ratings (db s2)) log_entry with
      | Some row =>
          let s3 := set_logs (model_update_logs (db s2) ++ [row]) s2 in
          (mkUpdateResult true (Some "warm_start_rebuild")
             (Some (pretty (Z.of_nat count) +:+ " new ratings (threshold: " +:+ pretty threshold +:+ ")"))
             mets false, s3)
      | None => (mkUpdateResult false None None None true, s2)
      end
    else
      (mkUpdateResult false None
         (Some ("Threshold not reached (" +:+ pretty (Z.of_nat count) +:+ "/"
                +:+ pretty threshold +:+ " ratings)")) None false, s).
End Lifecycle.

(** ** Interaction strength matrix of [get_user_based_recommendations] *)

Definition row_of (m : gmap Z (gmap Z Q)) (u : Z) : gmap Z Q := default ∅ (m !! u).

Definition strength (m : gmap Z (gmap Z Q)) (u k : Z) : option Q := row_of m u !! k.

(** [user_ratings[rating.user_id][rating.movie_id] = rating.rating] *)
Definition put_rating (acc : gmap Z (gmap Z Q)) (r : Rating) : gmap Z (gmap Z Q) :=
  <[r_user_id r := <[r_movie_id r := r_rating r]> (row_of acc (r_user_id r))]> acc.

(** [if movie_id not in user_ratings[user_id]: user_ratings[user_id][movie_id] = value]
    (the [defaultdict] access creates the row in both cases). *)
Definition put_implicit (value : Q) (acc : gmap Z (gmap Z Q)) (u k : Z) : gmap Z (gmap Z Q) :=
  let row := row_of acc u in
  match row !! k with
  | Some _ => <[u := row]> acc
  | None => <[u := <[k := value]> row]> acc
  end.

Definition favorite_strength : Q := 9#2.
Definition watchlist_strength : Q := 7#2.

Definition user_ratings_matrix (rs : list Rating) (fs : list Favorite) (ws : list WatchlistItem)
    : gmap Z (gmap Z Q) :=
  let m := fold_left put_rating rs ∅ in
  let m := fold_left (fun acc f => put_implicit favorite_strength acc (f_user_id f) (f_movie_id f)) fs m in
  fold_left (fun acc w => put_implicit watchlist_strength acc (w_user_id w) (w_movie_id w)) ws m.

(** ** User-based collaborative filtering ([get_user_based_recommendations]) *)

(** A cell of [pd.DataFrame(user_ratings).T.fillna(0)]. *)
Definition frame_value (m : gmap Z (gmap Z Q)) (u c : Z) : Q := default 0%Q (strength m u c).

(** Ascending order of distinct integer labels. *)

Section UserBased.
Variable cosine_similarity : list (list Q) -> list (list Q).

(** [get_user_based_recommendations(user_id, n)].  The rows of the frame
    are the keys of [user_ratings] in insertion order (ratings, then the
    favorites' and the watchlist's users, whose rows the [defaultdict]
    access creates); its columns are [frame_columns] of the ratings', the
    favorites' and the watchlist's assignments.  [sort_values(ascending=False)] breaks ties its own way, modelled
    by the stable sort; [sorted(..., reverse=True)] is stable. *)
Definition get_user_based_recommendations (d : Database) (uid : Z) (n : nat) : list Movie :=
  let rs := ratings d in
  let fs := favorites d in
  let ws := watchlist d in
  if (length rs <? 3)%nat then _get_popular_movies d n uid
  else
    let user_ratings := user_ratings_matrix rs fs ws in
    let index := dedup_first_z (map r_user_id rs ++ map f_user_id fs ++ map w_user_id ws) in
    let columns := frame_columns index (map (fun r => (r_user_id r, r_movie_id r)) rs
                                        ++ map (fun f => (f_user_id f, f_movie_id f)) fs
                                        ++ map (fun w => (w_user_id w, w_movie_id w)) ws) in
    match index_of uid index with
    | None => _get_popular_movies d n uid
    | Some j =>
        let df := map (fun u => map (frame_value user_ratings u) columns) index in
        let user_similarity := cosine_similarity df in
        let column := imap (fun i u => (u, nth j (nth i user_similarity []) 0%Q)) index in
        let similar_users := firstn 10 (skipn 1 (sort_by_score column)) in
        let excluded_ids := _get_excluded_movie_ids d uid in
        let user_movies := List.filter (fun c => Qltb 0 (frame_value user_ratings uid c)) columns in
        let recommendations :=
          fold_left (fun acc p =>
            let '(sim_user_id, similarity) := p in
            if Qle_bool similarity 0 then acc
            else
              let sim_user_movies :=
                map (fun c => (c, frame_value user_ratings sim_user_id c))
                    (List.filter (fun c => Qltb 0 (frame_value user_ratings sim_user_id c)) columns) in
              fold_left (fun acc q =>
                let '(movie_id, rating) := q in
                if negb (z_in movie_id user_movies) && negb (z_in movie_id excluded_ids)
                then add_score_z movie_id (rating * similarity)%Q acc else acc) sim_user_movies acc)
            similar_users [] in
        let top_movie_ids := map fst (firstn n (sort_by_score recommendations)) in
        order_by_ids (fetch_movies d top_movie_ids) top_movie_ids
    end.
End UserBased.

(** ** Forced rebuild ([force_model_update]) *)

(** The returned dict; [metrics = {}] is [None], [ratings_processed] is
    only present after the update ran, and [fu_error] tells whether the
    ['error'] key is present. *)
Record ForceUpdateResult := mkForceUpdateResult {
  fu_updated : bool;
  fu_update_type : string;
  fu_metrics : option SvdMetrics;
  fu_ratings_processed : option nat;
  fu_error : bool
}.

Section ForceUpdate.
Variable truncated_svd : Z -> list (list Q) -> option (list (list Q) * list (list Q)).

(** [force_model_update(update_type)]; [now] is the [created_at] the
    database gives the new log row.  When the commit raises, the [except]
    branch returns the initial dict with ['error']; the cache has been
    invalidated and rebuilt by then, and no row is written. *)
Definition force_model_update (update_type : string) (now : Z) : St ForceUpdateResult :=
  fun s =>
    let '(_, s1) := invalidate_svd_cache s in
    let '(success, s2) := _build_svd_model truncated_svd s1 in
    let mets := update_metrics success s2 in
    let total_ratings := length (ratings (db s2)) in
    let log_entry :=
      mkModelUpdateLog "svd" update_type total_ratings "manual_force_update" mets success now in
    match stored_log_row (ratings (db s2)) log_entry with
    | Some row =>
        let s3 := set_logs (model_update_logs (db s2) ++ [row]) s2 in
        (mkForceUpdateResult true update_type mets (Some total_ratings) false, s3)
    | None => (mkForceUpdateResult false update_type None None true, s2)
    end.
End ForceUpdate.

(** [get_model_update_history(limit)]: [ORDER BY created_at DESC LIMIT limit]
    (each row is returned as a dict of its columns). *)
Definition get_model_update_history (d : Database) (limit : nat) : list ModelUpdateLog :=
  firstn limit (sort_desc log_created_at Z.ltb (model_update_logs d)).

(** ** Recommendation events (A/B tracking) *)

(** A row of [recommendation_events]; the JSON [context] column is not
    read by any of the functions below and is not kept. *)
Record RecommendationEvent := mkRecommendationEvent {
  ev_id : Z;
  ev_user_id : Z;
  ev_movie_id : Z;
  algorithm : string;
  recommendation_score : option Q;
  position : option Z;
  clicked : bool;
  clicked_at : option Z;
  rated : bool;
  rated_at : option Z;
  rating_value : option Q;
  added_to_watchlist : bool;
  added_to_favorites : bool;
  ev_created_at : Z
}.

(** [track_recommendation(...)]: the insert gets the next [id] of the
    sequence and [created_at = now]; the foreign keys on [users.id] and
    [movies.id] make the commit fail for an unknown user or movie, and the
    [except] branch rolls back and returns [None]. *)
Definition track_recommendation (d : Database) (evs : list RecommendationEvent)
    (uid mid : Z) (algo : string) (pos : Z) (score : option Q) (next_id now : Z)
    : option Z * list RecommendationEvent :=
  if existsb (fun u => user_id u =? uid) (users d) && existsb (fun m => movie_id m =? mid) (movies d)
  then (Some next_id,
        evs ++ [mkRecommendationEvent next_id uid mid algo score (Some pos)
                  false None false None None false false now])
  else (None, evs).

Definition event_of_pair (uid mid : Z) (e : RecommendationEvent) : bool :=
  (ev_user_id e =? uid) && (ev_movie_id e =? mid).

(** [.filter(...).order_by(created_at.desc()).first()] over the table, as
    the row's position and the row. *)
Definition most_recent_event (p : RecommendationEvent -> bool) (evs : list RecommendationEvent)
    : option (nat * RecommendationEvent) :=
  head (sort_desc (fun ie => ev_created_at ie.2) Z.ltb
          (List.filter (fun ie => p ie.2) (imap pair evs))).

Definition mark_clicked (now : Z) (e : RecommendationEvent) : RecommendationEvent :=
  mkRecommendationEvent (ev_id e) (ev_user_id e) (ev_movie_id e) (algorithm e)
    (recommendation_score e) (position e) true (Some now) (rated e) (rated_at e)
    (rating_value e) (added_to_watchlist e) (added_to_favorites e) (ev_created_at e).

Definition mark_rated (now : Z) (v : option Q) (e : RecommendationEvent) : RecommendationEvent :=
  mkRecommendationEvent (ev_id e) (ev_user_id e) (ev_movie_id e) (algorithm e)
    (recommendation_score e) (position e) (clicked e) (clicked_at e) true (Some now)
    v (added_to_watchlist e) (added_to_favorites e) (ev_created_at e).

Definition mark_favorite (e : RecommendationEvent) : RecommendationEvent :=
  mkRecommendationEvent (ev_id e) (ev_user_id e) (ev_movie_id e) (algorithm e)
    (recommendation_score e) (position e) (clicked e) (clicked_at e) (rated e) (rated_at e)
    (rating_value e) (added_to_watchlist e) true (ev_created_at e).

Definition mark_watchlist (e : RecommendationEvent) : RecommendationEvent :=
  mkRecommendationEvent (ev_id e) (ev_user_id e) (ev_movie_id e) (algorithm e)
    (recommendation_score e) (position e) (clicked e) (clicked_at e) (rated e) (rated_at e)
    (rating_value e) true (added_to_favorites e) (ev_created_at e).

(** [track_recommendation_click(user_id, movie_id)]; [now] is [utcnow()]. *)
Definition track_recommendation_click (evs : list RecommendationEvent) (uid mid now : Z)
    : list RecommendationEvent :=
  match most_recent_event (fun e => event_of_pair uid mid e && negb (clicked e)) evs with
  | Some (i, e) => <[i := mark_clicked now e]> evs
  | None => evs
  end.

(** [track_recommendation_rating(user_id, movie_id, rating)] *)
Definition track_recommendation_rating (evs : list RecommendationEvent) (uid mid : Z)
    (rating : Q) (now : Z) : list RecommendationEvent :=
  match most_recent_event (fun e => event_of_pair uid mid e && negb (rated e)) evs with
  | Some (i, e) => <[i := mark_rated now (Some rating) e]> evs
  | None => evs
  end.

(** [track_recommendation_performance(user_id, movie_id, action, value)] *)
Definition track_recommendation_performance (evs : list RecommendationEvent) (uid mid : Z)
    (action : string) (value : option Q) (now : Z) : list RecommendationEvent :=
  match most_recent_event (event_of_pair uid mid) evs with
  | Some (i, e) =>
      let e' := if String.eqb action "click" then mark_clicked now e
                else if String.eqb action "rate" then mark_rated now value e
                else if String.eqb action "favorite" then mark_favorite e
                else if String.eqb action "watchlist" then mark_watchlist e
                else e in
      <[i := e']> evs
  | None => evs
  end.

(** One algorithm's entry of [get_algorithm_performance]. *)
Record AlgorithmPerformance := mkAlgorithmPerformance {
  total_recommendations : nat;
  total_clicks : nat;
  total_ratings : nat;
  avg_rating : option Q;
  total_favorites : nat;
  total_watchlist : nat;
  ctr : Q;
  rating_rate : Q
}.

(** Module-level names of [recommender.py] (its imports, [logger] and the
    class) and the names the method imports locally. *)
Definition recommender_module_names : list string :=
  ["pd"; "np"; "Session"; "desc"; "Rating"; "Movie"; "User"; "Favorite"; "WatchlistItem";
   "cosine_similarity"; "TruncatedSVD"; "csr_matrix"; "defaultdict"; "datetime"; "json";
   "logging"; "logger"; "MovieRecommender"].
Definition algorithm_performance_local_names : list string :=
  ["RecommendationEvent"; "datetime"; "timedelta"; "func"].

Definition b2n (b : bool) : nat := if b then 1%nat else 0%nat.

(** [SUM(CAST(flag AS INTEGER))] *)
Definition count_true (f : RecommendationEvent -> bool) (g : list RecommendationEvent) : nat :=
  list_sum (map (fun e => b2n (f e)) g).

(** [AVG(rating_value)] over the non-NULL values; NULL when there are none. *)
Definition avg_rating_value (g : list RecommendationEvent) : option Q :=
  let vs := omap rating_value g in
  match vs with
  | [] => None
  | _ => Some (fold_left Qplus vs 0 / inject_Z (Z.of_nat (length vs)))%Q
  end.

(** The row of one [GROUP BY algorithm] group, formatted by the loop. *)
Definition performance_row (g : list RecommendationEvent) : AlgorithmPerformance :=
  let total := length g in
  let clicks := count_true clicked g in
  let nratings := count_true rated g in
  mkAlgorithmPerformance total clicks nratings
    (match avg_rating_value g with
     | Some a => if Qeq_bool a 0 then None else Some a
     | None => None
     end)
    (count_true added_to_favorites g) (count_true added_to_watchlist g)
    (if (0 <? total)%nat
     then (inject_Z (Z.of_nat clicks) / inject_Z (Z.of_nat total) * 100)%Q else 0%Q)
    (if (0 <? total)%nat
     then (inject_Z (Z.of_nat nratings) / inject_Z (Z.of_nat total) * 100)%Q else 0%Q).

(** [get_algorithm_performance(days)]; [now] is [utcnow()] and [days] is
    counted in the same unit as [created_at].  Evaluating the query's
    arguments looks up the name [Integer] ([func.cast(..., Integer)]); a name
    that is neither local nor global raises [NameError], which the
    [except] branch turns into [{}].  The groups are listed in order of
    first appearance. *)
Definition get_algorithm_performance (evs : list RecommendationEvent) (days now : Z)
    : list (string * AlgorithmPerformance) :=
  if s_in "Integer" (algorithm_performance_local_names ++ recommender_module_names) then
    let cutoff := now - days in
    let recent := List.filter (fun e => cutoff <=? ev_created_at e) evs in
    let algos := py_set (rev (map algorithm recent)) in
    map (fun a => (a, performance_row (List.filter (fun e => String.eqb (algorithm e) a) recent)))
        (rev algos)
  else [].

(** * Properties *)

(** ** The stable descending sort only reorders *)

Section SortFacts.
Context {A K : Type} (key : A -> K) (ltb : K -> K -> bool).

Lemma insert_desc_perm (x : A) (l : list A) : insert_desc key ltb x l ≡ₚ x :: l.
Proof.
  induction l as [|y t IH]; simpl; [done|].
  destruct (ltb (key y) (key x)); [done|].
  rewrite IH. constructor.
Qed.

Lemma sort_desc_fold_perm (l acc : list A) :
  fold_left (fun acc x => insert_desc key ltb x acc) l acc ≡ₚ l ++ acc.
Proof.
  revert acc; induction l as [|x t IH]; intros acc; simpl; [done|].
  rewrite IH, insert_desc_perm. by rewrite Permutation_middle.
Qed.

Lemma sort_desc_perm (l : list A) : sort_desc key ltb l ≡ₚ l.
Proof. unfold sort_desc. by rewrite sort_desc_fold_perm, app_nil_r. Qed.
End SortFacts.

Lemma rerank_by_score_perm (f : Movie -> Q) (ms : list Movie) :
  map fst (sort_by_score (map (fun m => (m, f m)) ms)) ≡ₚ ms.
Proof.
  unfold sort_by_score.
  rewrite (Permutation_map fst (sort_desc_perm snd Qltb _)).
  rewrite map_map. simpl. by rewrite map_id.
Qed.

(** ** Re-rankers *)

(** C10: both re-ranking passes return a permutation of their input: the
    temporal re-ranker for every context, the diversity booster for every
    context and boost factor (including the default 1.3). *)
Theorem rerankers_are_permutations (ms : list Movie) (ctx : Context) (boost_factor : Q) :
  _apply_temporal_filtering ms ctx ≡ₚ ms /\
  _apply_diversity_boost_with ms ctx boost_factor ≡ₚ ms /\
  _apply_diversity_boost ms ctx ≡ₚ ms.
Proof.
  assert (Hd : forall b, _apply_diversity_boost_with ms ctx b ≡ₚ ms).
  { intros b. unfold _apply_diversity_boost_with.
    case_bool_decide; [done|]. apply rerank_by_score_perm. }
  split; [|split; [apply Hd|apply Hd]].
  unfold _apply_temporal_filtering. apply rerank_by_score_perm.
Qed.

(** ** Cold-start classifier *)

(** C9: [_is_cold_start_user] answers [rating + favorite + watchlist
    counts < 3] and leaves the store (database and model cache) unchanged;
    hence two classifications without writes in between agree. *)
Theorem is_cold_start_user_spec (s : Store) (uid : Z) :
  _is_cold_start_user uid s =
    (((length (user_ratings_of (db s) uid) + length (user_favorites_of (db s) uid)
       + length (user_watchlist_of (db s) uid)) <? 3)%nat, s) /\
  fst (_is_cold_start_user uid s) = fst (_is_cold_start_user uid (snd (_is_cold_start_user uid s))).
Proof. split; reflexivity. Qed.

(** ** Disliked-genre filter *)







(** ** Interaction strength matrix *)

Lemma strength_insert_row (m : gmap Z (gmap Z Q)) (u0 u k : Z) (row : gmap Z Q) :
  strength (<[u0 := row]> m) u k = if decide (u0 = u) then row !! k else strength m u k.
Proof.
  unfold strength, row_of. rewrite lookup_insert. by case_decide.
Qed.

Lemma strength_put_rating (acc : gmap Z (gmap Z Q)) (r : Rating) (u k : Z) :
  strength (put_rating acc r) u k =
  if (r_user_id r =? u) && (r_movie_id r =? k) then Some (r_rating r) else strength acc u k.
Proof.
  unfold put_rating. rewrite strength_insert_row.
  case_decide as Hu; subst.
  - rewrite Z.eqb_refl. simpl. rewrite lookup_insert.
    case_decide as Hk; subst; [by rewrite Z.eqb_refl|].
    rewrite (proj2 (Z.eqb_neq _ _) Hk). done.
  - by rewrite (proj2 (Z.eqb_neq _ _) Hu).
Qed.

Lemma strength_put_implicit (v : Q) (acc : gmap Z (gmap Z Q)) (u0 k0 u k : Z) :
  strength (put_implicit v acc u0 k0) u k =
  if (u0 =? u) && (k0 =? k)
  then match strength acc u k with Some q => Some q | None => Some v end
  else strength acc u k.
Proof.
  unfold put_implicit.
  destruct (row_of acc u0 !! k0) as [q|] eqn:Hrow; rewrite strength_insert_row;
    case_decide as Hu; subst.
  - rewrite Z.eqb_refl. simpl. unfold strength.
    destruct (Z.eqb_spec k0 k); subst; [by rewrite Hrow|done].
  - by rewrite (proj2 (Z.eqb_neq _ _) Hu).
  - rewrite Z.eqb_refl. simpl. unfold strength. rewrite lookup_insert.
    destruct (Z.eqb_spec k0 k); subst; case_decide; try done; by rewrite Hrow.
  - by rewrite (proj2 (Z.eqb_neq _ _) Hu).
Qed.

Lemma strength_fold_ratings (rs : list Rating) (acc : gmap Z (gmap Z Q)) (u k : Z) :
  strength (fold_left put_rating rs acc) u k =
  fold_left (fun o r => if (r_user_id r =? u) && (r_movie_id r =? k) then Some (r_rating r) else o)
            rs (strength acc u k).
Proof.
  revert acc; induction rs as [|r rs IH]; intros acc; simpl; [done|].
  rewrite IH, strength_put_rating. done.
Qed.

Lemma strength_fold_implicit {A} (uid mid : A -> Z) (v : Q) (xs : list A)
    (acc : gmap Z (gmap Z Q)) (u k : Z) :
  strength (fold_left (fun acc x => put_implicit v acc (uid x) (mid x)) xs acc) u k =
  match strength acc u k with
  | Some q => Some q
  | None => if existsb (fun x => (uid x =? u) && (mid x =? k)) xs then Some v else None
  end.
Proof.
  revert acc; induction xs as [|x xs IH]; intros acc; simpl.
  - by destruct (strength acc u k).
  - rewrite IH, strength_put_implicit.
    destruct ((uid x =? u) && (mid x =? k)); simpl; by destruct (strength acc u k).
Qed.

(** C8: in the user x movie strength matrix, the last explicit rating of a
    pair always gives its strength; otherwise a favorite gives 4.5, and
    only without rating and favorite a watchlist entry gives 3.5; the
    favorite strength is above the watchlist strength. *)
Theorem interaction_strength_precedence (rs : list Rating) (fs : list Favorite)
    (ws : list WatchlistItem) (u k : Z) :
  strength (user_ratings_matrix rs fs ws) u k =
    match fold_left (fun o r => if (r_user_id r =? u) && (r_movie_id r =? k)
                                then Some (r_rating r) else o) rs None with
    | Some q => Some q
    | None =>
        if existsb (fun f => (f_user_id f =? u) && (f_movie_id f =? k)) fs
        then Some favorite_strength
        else if existsb (fun w => (w_user_id w =? u) && (w_movie_id w =? k)) ws
        then Some watchlist_strength
        else None
    end /\
  (watchlist_strength < favorite_strength)%Q.
Proof.
  split; [|unfold watchlist_strength, favorite_strength, Qlt; simpl; lia].
  unfold user_ratings_matrix.
  rewrite (strength_fold_implicit w_user_id w_movie_id).
  rewrite (strength_fold_implicit f_user_id f_movie_id).
  rewrite strength_fold_ratings.
  replace (strength ∅ u k) with (@None Q) by done.
  destruct (fold_left _ rs None); [done|].
  by destruct (existsb _ fs).
Qed.

(** ** Re-rankers without recent history *)

Definition comedy_movie : Movie := mkMovie 1 (GList ["Comedy"]) (Some 7%Q) (Some 200) None None.
Definition drama_movie : Movie := mkMovie 2 (GList ["Drama"]) (Some 7%Q) (Some 200) None None.

(** A user (id 7) with no ratings at all. *)
Definition db_no_history : Database :=
  mkDatabase [mkUser 7 None None None] [comedy_movie; drama_movie] [] [] [] [].

Example no_history_context :
  _get_contextual_features db_no_history 7 19 2 =
  mkContext (mkTemporal 19 2 false "evening") [] [] [].
Proof. reflexivity. Qed.

(** C2 (counterexample): for a user without any rating, on a Wednesday
    evening, the temporal re-ranker moves the Drama candidate in front of
    the Comedy one, so it is not a no-op without recent history. *)
Lemma temporal_rerank_reorders_without_history :
  let ctx := _get_contextual_features db_no_history 7 19 2 in
  recent_genres ctx = [] /\ sequential_patterns ctx = [] /\
  _apply_diversity_boost [comedy_movie; drama_movie] ctx = [comedy_movie; drama_movie] /\
  _apply_temporal_filtering [comedy_movie; drama_movie] ctx = [drama_movie; comedy_movie] /\
  _apply_temporal_filtering [comedy_movie; drama_movie] ctx <> [comedy_movie; drama_movie].
Proof. vm_compute. repeat split; discriminate. Qed.

(** C2 (amended): the diversity booster returns its input unchanged when
    the recent-genre set is empty; the temporal re-ranker has no such
    guard, and its result does not depend on the recent-interaction part
    of the context (recent genres, saturation, recent ratings) at all. *)
Theorem rerankers_without_history (ms : list Movie) (ctx : Context)
    (Hnone : recent_genres ctx = []) :
  _apply_diversity_boost ms ctx = ms /\
  (forall rg sat seq,
     _apply_temporal_filtering ms ctx =
     _apply_temporal_filtering ms (mkContext (temporal ctx) rg sat seq)).
Proof.
  split.
  - unfold _apply_diversity_boost, _apply_diversity_boost_with. rewrite Hnone. done.
  - intros rg sat seq. reflexivity.
Qed.

Lemma rerankers_without_history_witness :
  let ctx := _get_contextual_features db_no_history 7 19 2 in
  recent_genres ctx = [] /\
  _apply_diversity_boost [comedy_movie; drama_movie] ctx = [comedy_movie; drama_movie].
Proof.
  split; [reflexivity|].
  apply (rerankers_without_history [comedy_movie; drama_movie]
           (_get_contextual_features db_no_history 7 19 2)).
  reflexivity.
Defined.

(** ** SVD build failure and fallback *)

Lemma index_of_from_absent (x : Z) (l : list Z) (i : nat) :
  z_in x l = false -> index_of_from x l i = None.
Proof.
  revert i; induction l as [|y t IH]; intros i H; simpl in *; [done|].
  apply orb_false_iff in H as [H1 H2]. rewrite H1. by apply IH.
Qed.

Lemma build_svd_model_db ts (s : Store) : db (snd (_build_svd_model ts s)) = db s.
Proof.
  unfold _build_svd_model.
  destruct (_ <? svd_min_ratings)%nat; [done|].
  destruct (_ <? 2)%nat; [done|].
  destruct (_ <? 2); [done|].
  destruct (ts _ _) as [[uf itf]|]; done.
Qed.

(** C4: the build reports [false] when there are fewer than
    [svd_min_ratings] (10) ratings, fewer than 2 user rows, or a rank
    [min(svd_components, min(users, movies) - 1)] below 2; a failed build
    makes [get_svd_recommendations] return the item-based result.  So does
    a user absent from the trained user index, both when the call has just
    built the model (the index is then the list of raters, see
    [build_svd_model_success]) and when a model was cached before. *)
Theorem svd_failure_falls_back_to_item_based cos ts (s : Store) (uid : Z) (n : nat) :
  (let all := ratings (db s) in
   let uids := dedup_first_z (map r_user_id all) in
   let mids := frame_columns uids (map (fun r => (r_user_id r, r_movie_id r)) all) in
   (length all < svd_min_ratings)%nat \/ (length uids < 2)%nat \/
   Z.min svd_components (Z.min (Z.of_nat (length uids)) (Z.of_nat (length mids)) - 1) < 2 ->
   fst (_build_svd_model ts s) = false) /\
  (_svd_model s = None -> fst (_build_svd_model ts s) = false ->
   fst (get_svd_recommendations cos ts uid n s) = get_item_based_recommendations cos (db s) uid n) /\
  (_svd_model s = None -> fst (_build_svd_model ts s) = true ->
   z_in uid (default [] (_svd_user_ids (snd (_build_svd_model ts s)))) = false ->
   fst (get_svd_recommendations cos ts uid n s) = get_item_based_recommendations cos (db s) uid n) /\
  (_svd_model s <> None -> z_in uid (default [] (_svd_user_ids s)) = false ->
   fst (get_svd_recommendations cos ts uid n s) = get_item_based_recommendations cos (db s) uid n).
Proof.
  split; [|split; [|split]].
  - simpl. intros H. unfold _build_svd_model.
    set (uids := dedup_first_z (map r_user_id (ratings (db s)))) in *.
    set (mids := frame_columns uids _) in *.
    destruct (Nat.ltb_spec (length (ratings (db s))) svd_min_ratings); [done|].
    destruct (Nat.ltb_spec (length uids) 2); [done|].
    destruct (Z.ltb_spec (Z.min svd_components
               (Z.min (Z.of_nat (length uids)) (Z.of_nat (length mids)) - 1)) 2); [done|].
    exfalso. lia.
  - intros Hm Hb. unfold get_svd_recommendations, st_bind, st_read. rewrite Hm.
    destruct (_build_svd_model ts s) as [ok s1] eqn:E. simpl in Hb; subst ok. simpl.
    pose proof (build_svd_model_db ts s) as Hdb. rewrite E in Hdb. simpl in Hdb. by rewrite Hdb.
  - intros Hm Hb Hu. unfold get_svd_recommendations, st_bind, st_read. rewrite Hm.
    pose proof (build_svd_model_db ts s) as Hdb.
    destruct (_build_svd_model ts s) as [ok s1] eqn:E. simpl in Hb, Hu, Hdb; subst ok. simpl.
    unfold index_of. rewrite index_of_from_absent by done. by rewrite Hdb.
  - intros Hm Hu. unfold get_svd_recommendations, st_bind, st_read.
    destruct (_svd_model s) as [fit|]; [|done]. simpl.
    unfold index_of. by rewrite index_of_from_absent.
Qed.

(** Ten ratings of a single user: the build fails (one user row). *)
Definition db_one_rater : Database :=
  mkDatabase [mkUser 1 None None None] [comedy_movie; drama_movie]
    (map (fun i => mkRating 1 (Z.of_nat i) 4 (Z.of_nat i)) (seq 1 10)) [] [] [].

Definition store_of (d : Database) : Store := mkStore d None None None None None None.

(** Five users each rating the same ten movies once (fifty ratings, the
    [i]-th at time [i]), the values given by [value]; no log entry yet. *)
Definition grid_db (value : nat -> Q) : Database :=
  mkDatabase (map (fun u => mkUser (Z.of_nat u) None None None) (seq 1 5))
    [comedy_movie; drama_movie]
    (map (fun i => mkRating (Z.of_nat (1 + i mod 5)) (Z.of_nat (1 + i / 5)) (value i) (Z.of_nat i))
         (seq 0 50))
    [] [] [].

(** Every rating is 4.0: every column of the matrix is constant. *)
Definition db_constant_ratings : Database := grid_db (fun _ => 4%Q).

(** Ratings 1.0 to 4.0 in turn: the columns vary. *)
Definition db_varied_ratings : Database := grid_db (fun i => inject_Z (1 + Z.of_nat (i mod 4))).

(** scikit-learn fits the 5 x 10 matrix (only the factor values, which are
    not observed here, depend on the fit). *)
Definition svd_fit_ok : Z -> list (list Q) -> option (list (list Q) * list (list Q)) :=
  fun _ _ => Some ([], []).

Lemma svd_failure_falls_back_to_item_based_witness :
  fst (_build_svd_model (fun _ _ => None) (store_of db_one_rater)) = false /\
  fst (get_svd_recommendations (fun m => m) (fun _ _ => None) 1 3 (store_of db_one_rater)) =
  get_item_based_recommendations (fun m => m) db_one_rater 1 3 /\
  fst (get_svd_recommendations (fun m => m) svd_fit_ok 7 3 (store_of db_varied_ratings)) =
  get_item_based_recommendations (fun m => m) db_varied_ratings 7 3.
Proof.
  pose proof (svd_failure_falls_back_to_item_based (fun m => m) (fun _ _ => None)
                (store_of db_one_rater) 1 3) as (H1 & H2 & _).
  pose proof (svd_failure_falls_back_to_item_based (fun m => m) svd_fit_ok
                (store_of db_varied_ratings) 7 3) as (_ & _ & H3 & _).
  assert (Hb : fst (_build_svd_model (fun _ _ => None) (store_of db_one_rater)) = false).
  { apply H1. simpl. right; left. vm_compute. lia. }
  split; [exact Hb|]. split; [apply H2; [reflexivity|exact Hb]|].
  apply H3; [reflexivity|vm_compute; reflexivity|vm_compute; reflexivity].
Defined.

(** ** Incremental update trigger *)

Lemma build_svd_model_true ts (s : Store) :
  fst (_build_svd_model ts s) = true -> _svd_model (snd (_build_svd_model ts s)) <> None.
Proof.
  unfold _build_svd_model.
  destruct (_ <? svd_min_ratings)%nat; [done|].
  destruct (_ <? 2)%nat; [done|].
  destruct (_ <? 2); [done|].
  destruct (ts _ _) as [[uf itf]|]; done.
Qed.







(** A row of type [svd]: the model type always fits its column. *)
Lemma stored_log_row_svd (all : list Rating) (ut tr : string) (cnt : nat) (m : option SvdMetrics)
    (ok : bool) (now : Z) :
  stored_log_row all (mkModelUpdateLog "svd" ut cnt tr m ok now) =
  match varchar_value 50 ut, varchar_value 100 tr with
  | Some ut', Some tr' =>
      if (Z.of_nat cnt <=? pg_integer_max) && metrics_json_ok all m
      then Some (mkModelUpdateLog "svd" ut' cnt tr' m ok now) else None
  | _, _ => None
  end.
Proof. reflexivity. Qed.

Lemma update_metrics_none ts (s : Store) :
  update_metrics (fst (_build_svd_model ts s)) (snd (_build_svd_model ts s)) = None <->
  fst (_build_svd_model ts s) = false.
Proof.
  pose proof (build_svd_model_true ts s) as Hm.
  destruct (_build_svd_model ts s) as [ok s2]. simpl in *. unfold update_metrics.
  destruct ok; [|done]. destruct (_svd_model s2); [done|]. by destruct (Hm eq_refl).
Qed.

Lemma metrics_json_ok_update ts (s : Store) (all : list Rating) :
  metrics_json_ok all (update_metrics (fst (_build_svd_model ts s)) (snd (_build_svd_model ts s))) =
  negb (fst (_build_svd_model ts s)) || explained_variance_ratio_finite all.
Proof.
  pose proof (update_metrics_none ts s) as H.
  destruct (update_metrics _ _) eqn:E; simpl.
  - destruct (fst (_build_svd_model ts s)); [done|]. by destruct (proj2 H eq_refl).
  - by rewrite (proj1 H eq_refl).
Qed.

(** A triggered [incremental_update]: rebuild from the emptied cache, then
    the commit of the log row decides the result. *)
Lemma incremental_update_fired ts (s : Store) (uid mid : Z) (rating : Q) (now : Z) :
  update_threshold s <= Z.of_nat (new_ratings_count (db s)) ->
  let B := _build_svd_model ts (snd (invalidate_svd_cache s)) in
  let t := update_threshold s in
  let c := new_ratings_count (db s) in
  let mets := update_metrics (fst B) (snd B) in
  incremental_update ts uid mid rating now s =
  match stored_log_row (ratings (db s))
          (mkModelUpdateLog "svd" "warm_start_rebuild" c ("threshold_reached_" +:+ pretty t)
             mets (fst B) now) with
  | Some row =>
      (mkUpdateResult true (Some "warm_start_rebuild")
         (Some (pretty (Z.of_nat c) +:+ " new ratings (threshold: " +:+ pretty t +:+ ")"))
         mets false,
       set_logs (model_update_logs (db s) ++ [row]) (snd B))
  | None => (mkUpdateResult false None None None true, snd B)
  end.
Proof.
  intros Hle B t c mets. subst B t c mets. unfold incremental_update.
  rewrite (proj2 (Z.leb_le _ _) Hle). cbn [invalidate_svd_cache snd].
  pose proof (build_svd_model_db ts (mkStore (db s) None None None None None
                                       (incremental_update_threshold s))) as Hdb.
  destruct (_build_svd_model ts _) as [ok s2]. simpl in Hdb |- *. by rewrite Hdb.
Qed.


(** Fifty ratings by two users and no log entry yet. *)
Definition db_fifty_ratings : Database :=
  mkDatabase [mkUser 1 None None None; mkUser 2 None None None] [comedy_movie; drama_movie]
    (map (fun i => mkRating (Z.of_nat (1 + i mod 2)) (Z.of_nat i) 4 (Z.of_nat i)) (seq 1 50))
    [] [] [].



(** ** Warm composition *)

(** Concatenation deduplicated by movie id, first occurrence kept. *)
Definition dedup_by_id (l : list Movie) : list Movie := fold_left add_new_uncapped l [].

Lemma fold_uncapped_length (l acc : list Movie) :
  (length (fold_left add_new_uncapped l acc) <= length acc + length l)%nat.
Proof.
  revert acc; induction l as [|x l IH]; intros acc; simpl; [lia|].
  specialize (IH (add_new_uncapped acc x)).
  unfold add_new_uncapped in *. destruct (negb _); rewrite ?length_app in IH; simpl in *; lia.
Qed.

Lemma fold_capped_uncapped (n : nat) (l acc : list Movie) :
  (length acc + length l <= n)%nat ->
  fold_left (add_new n) l acc = fold_left add_new_uncapped l acc.
Proof.
  revert acc; induction l as [|x l IH]; intros acc H; simpl in *; [done|].
  assert (Hx : add_new n acc x = add_new_uncapped acc x).
  { unfold add_new, add_new_uncapped.
    rewrite (proj2 (Nat.ltb_lt _ _)) by lia. by rewrite andb_true_r. }
  rewrite Hx. apply IH.
  unfold add_new_uncapped. destruct (negb _); rewrite ?length_app; simpl; lia.
Qed.

Lemma warm_weights_sum (n : nat) : (svd_weight n + item_weight n + content_weight n = n)%nat.
Proof.
  unfold content_weight, svd_weight, item_weight.
  assert (5 * (3 * n / 5) <= 3 * n)%nat by (apply Nat.Div0.mul_div_le).
  assert (4 * (n / 4) <= n)%nat by (apply Nat.Div0.mul_div_le).
  lia.
Qed.

Lemma compose_warm_slices (n : nat) (svd_movies item_movies content_movies : list Movie) :
  compose_warm n svd_movies item_movies content_movies =
  fill_remaining n
    (dedup_by_id (firstn (svd_weight n) svd_movies ++ firstn (item_weight n) item_movies
                  ++ firstn (content_weight n) content_movies))
    (svd_movies ++ item_movies ++ content_movies).
Proof.
  unfold compose_warm, warm_tail, dedup_by_id. rewrite !fold_left_app.
  pose proof (warm_weights_sum n) as Hw.
  pose proof (fold_uncapped_length (firstn (svd_weight n) svd_movies) []) as H1.
  rewrite length_firstn in H1. simpl in H1.
  rewrite (fold_capped_uncapped n (firstn (item_weight n) item_movies))
    by (rewrite length_firstn; lia).
  pose proof (fold_uncapped_length (firstn (item_weight n) item_movies)
                (fold_left add_new_uncapped (firstn (svd_weight n) svd_movies) [])) as H2.
  rewrite length_firstn in H2.
  rewrite (fold_capped_uncapped n (firstn (content_weight n) content_movies))
    by (rewrite length_firstn; lia).
  done.
Qed.

Lemma get_svd_recommendations_db cos ts (uid : Z) (n : nat) (s : Store) :
  db (snd (get_svd_recommendations cos ts uid n s)) = db s.
Proof.
  unfold get_svd_recommendations, st_bind, st_read.
  destruct (_svd_model s) as [fit|].
  - simpl. destruct (index_of _ _); done.
  - pose proof (build_svd_model_db ts s) as Hdb.
    destruct (_build_svd_model ts s) as [[|] s1]; simpl in *;
      [destruct (index_of _ _)|]; done.
Qed.

Definition rerank (context : option Context) (ms : list Movie) : list Movie :=
  match context with
  | Some c => _apply_diversity_boost (_apply_temporal_filtering ms c) c
  | None => ms
  end.

(** C7: in the warm branch without embeddings, the latent-factor,
    item-based and content lists contribute slices of
    [floor(0.6 n)], [floor(0.25 n)] and the remaining
    [n - floor(0.6 n) - floor(0.25 n)] items, concatenated in that priority
    order and deduplicated by movie id (then the round-robin fill); the
    list is re-ranked, genre-filtered and trimmed to at most [n] items. *)
Theorem warm_composition_weights cos ts emb (s : Store) (uid : Z) (n : nat)
    (use_context : bool) (now_hour now_weekday : Z)
    (Hwarm : (cold_start_threshold <= total_interactions (db s) uid)%nat) :
  let svd_movies := fst (get_svd_recommendations cos ts uid n s) in
  let item_movies := get_item_based_recommendations cos (db s) uid n in
  let content_movies := get_content_based_recommendations (db s) uid n in
  let context := if use_context then Some (_get_contextual_features (db s) uid now_hour now_weekday)
                 else None in
  let result := fst (get_hybrid_recommendations cos ts emb uid n use_context false
                      now_hour now_weekday s) in
  result = firstn n (_filter_disliked_genres (db s)
                       (rerank context (compose_warm n svd_movies item_movies content_movies)) uid) /\
  compose_warm n svd_movies item_movies content_movies =
    fill_remaining n
      (dedup_by_id (firstn (svd_weight n) svd_movies ++ firstn (item_weight n) item_movies
                    ++ firstn (content_weight n) content_movies))
      (svd_movies ++ item_movies ++ content_movies) /\
  Z.of_nat (svd_weight n) = Qfloor (inject_Z (Z.of_nat n) * (3#5)) /\
  Z.of_nat (item_weight n) = Qfloor (inject_Z (Z.of_nat n) * (1#4)) /\
  (content_weight n = n - svd_weight n - item_weight n)%nat /\
  (length result <= n)%nat.
Proof.
  intros svd_movies item_movies content_movies context result.
  assert (Hres : result = firstn n (_filter_disliked_genres (db s)
                   (rerank context (compose_warm n svd_movies item_movies content_movies)) uid)).
  { subst result svd_movies item_movies content_movies context.
    unfold get_hybrid_recommendations, _is_cold_start_user, st_bind, st_read, st_ret.
    unfold total_interactions in Hwarm. unfold cold_start_threshold in Hwarm |- *.
    cbn [fst snd]. rewrite (proj2 (Nat.ltb_ge _ _) Hwarm).
    pose proof (get_svd_recommendations_db cos ts uid n s) as Hdb.
    destruct (get_svd_recommendations cos ts uid n s) as [sv s1]. simpl in Hdb |- *.
    rewrite Hdb. by destruct use_context. }
  split; [exact Hres|]. split; [apply compose_warm_slices|].
  split; [|split; [|split]].
  - unfold svd_weight. rewrite Nat2Z.inj_div. unfold Qfloor, inject_Z, Qmult. simpl.
    f_equal; lia.
  - unfold item_weight. rewrite Nat2Z.inj_div. unfold Qfloor, inject_Z, Qmult. simpl.
    f_equal; lia.
  - done.
  - rewrite Hres, length_firstn. lia.
Qed.

Lemma warm_composition_weights_witness :
  (cold_start_threshold <= total_interactions (db (store_of db_fifty_ratings)) 1)%nat /\
  (length (fst (get_hybrid_recommendations (fun m => m) (fun _ _ => None) (fun _ _ _ => None)
                  1 4 true false 19 2 (store_of db_fifty_ratings))) <= 4)%nat.
Proof.
  assert (H : (cold_start_threshold <= total_interactions (db (store_of db_fifty_ratings)) 1)%nat).
  { vm_compute. lia. }
  split; [exact H|].
  exact (proj2 (proj2 (proj2 (proj2 (proj2
    (warm_composition_weights (fun m => m) (fun _ _ => None) (fun _ _ _ => None)
       (store_of db_fifty_ratings) 1 4 true 19 2 H)))))).
Defined.

(** ** Seen-item exclusion on the cold-start path *)

Definition action_movie : Movie := mkMovie 10 (GList ["Action"]) (Some 8%Q) (Some 100) None (Some 100).

(** User 9 liked "Action" in onboarding and favorited movie 10; nothing else. *)
Definition db_cold_favorite : Database :=
  mkDatabase [mkUser 9 None None (Some [("Action", 1%Q)])] [action_movie]
    [] [mkFavorite 9 10] [] [].

(** C1 (code bug): for the cold-start user 9, who has favorited movie 10,
    [get_hybrid_recommendations(9, 5)] returns exactly that movie: the
    genre-based generator excludes only movies rated 2 stars or less, not
    movies already rated, favorited or watchlisted. *)
Theorem hybrid_recommends_favorited_movie cos ts emb :
  let res := fst (get_hybrid_recommendations cos ts emb 9 5 true false 19 2
                    (store_of db_cold_favorite)) in
  res = [action_movie] /\
  In (movie_id action_movie) (interacted_movie_ids db_cold_favorite 9) /\
  get_genre_based_recommendations db_cold_favorite 9 5 = [action_movie] /\
  _get_popular_movies db_cold_favorite 5 9 = [].
Proof. vm_compute. repeat split; auto. Qed.

(** * Further properties of the engine *)

(** ** Membership helpers *)

Lemma z_in_true (x : Z) (l : list Z) : z_in x l = true <-> In x l.
Proof.
  unfold z_in. rewrite existsb_exists. split.
  - intros (y & Hy & Heq). apply Z.eqb_eq in Heq. by subst.
  - intros H. exists x. split; [done|]. apply Z.eqb_refl.
Qed.

Lemma z_in_false (x : Z) (l : list Z) : z_in x l = false <-> ~ In x l.
Proof. rewrite <- z_in_true. destruct (z_in x l); intuition congruence. Qed.

Lemma firstn_in {A} (n : nat) (l : list A) (x : A) : In x (firstn n l) -> In x l.
Proof. intros H. rewrite <- (firstn_skipn n l). apply in_or_app. by left. Qed.

Lemma nodup_map_filter {A B} (g : A -> B) (f : A -> bool) (l : list A) :
  NoDup (map g l) -> NoDup (map g (List.filter f l)).
Proof.
  induction l as [|x l IH]; intros H; cbn [List.filter]; [done|].
  simpl in H. inversion H as [|? ? Hx Hl]; subst.
  destruct (f x); [|by apply IH]. simpl. constructor; [|by apply IH].
  intros Hin. apply Hx. apply list_elem_of_In. apply list_elem_of_In in Hin.
  apply in_map_iff in Hin as (y & <- & Hy).
  apply filter_In in Hy as [Hy _]. by apply in_map.
Qed.

Lemma nodup_map_firstn {A B} (g : A -> B) (n : nat) (l : list A) :
  NoDup (map g l) -> NoDup (map g (firstn n l)).
Proof.
  revert l; induction n as [|n IH]; intros [|x l] H; [constructor..|].
  simpl in *. inversion H as [|? ? Hx Hl]; subst. constructor; [|by apply IH].
  intros Hin. apply Hx. apply list_elem_of_In. apply list_elem_of_In in Hin.
  apply in_map_iff in Hin as (y & <- & Hy).
  apply in_map. by apply (firstn_in n).
Qed.

(** The disliked-genre filter returns its input or a filtered copy of it. *)
Lemma filter_disliked_shape (d : Database) (ms : list Movie) (uid : Z) :
  _filter_disliked_genres d ms uid = ms \/
  exists f, _filter_disliked_genres d ms uid = List.filter f ms.
Proof.
  unfold _filter_disliked_genres.
  destruct (find_user d uid) as [u|]; [|by left].
  destruct (genre_preferences u) as [[|p prefs]|]; try by left.
  case_bool_decide; [by left|].
  destruct (List.filter _ ms) as [|m l] eqn:E; [by left|].
  right. eexists. symmetry. exact E.
Qed.

Lemma filter_disliked_nodup_length (d : Database) (ms : list Movie) (uid : Z) :
  NoDup (map movie_id ms) ->
  NoDup (map movie_id (_filter_disliked_genres d ms uid)) /\
  (length (_filter_disliked_genres d ms uid) <= length ms)%nat.
Proof.
  intros H. destruct (filter_disliked_shape d ms uid) as [-> | [f ->]]; [done|].
  split; [by apply nodup_map_filter|]. apply filter_length_le.
Qed.

Lemma filter_disliked_In (d : Database) (ms : list Movie) (uid : Z) (m : Movie) :
  In m (_filter_disliked_genres d ms uid) -> In m ms.
Proof.
  destruct (filter_disliked_shape d ms uid) as [-> | [f ->]]; [done|].
  intros Hm. by apply filter_In in Hm as [? _].
Qed.

(** ** Growing a recommendation list without repeating a movie *)

Lemma snoc_nodup (recs : list Movie) (m : Movie) :
  NoDup (map movie_id recs) -> z_in (movie_id m) (map movie_id recs) = false ->
  NoDup (map movie_id (recs ++ [m])).
Proof.
  intros H Hn. apply z_in_false in Hn. rewrite map_app. simpl.
  rewrite (Permutation_app_comm _ [_]). constructor; [|done].
  by rewrite list_elem_of_In.
Qed.

Lemma add_new_nodup (cap : nat) (recs : list Movie) (m : Movie) :
  NoDup (map movie_id recs) -> NoDup (map movie_id (add_new cap recs m)).
Proof.
  intros H. unfold add_new. destruct (z_in _ _) eqn:E; simpl; [done|].
  destruct (_ <? _)%nat; [by apply snoc_nodup|done].
Qed.

Lemma add_new_uncapped_nodup (recs : list Movie) (m : Movie) :
  NoDup (map movie_id recs) -> NoDup (map movie_id (add_new_uncapped recs m)).
Proof.
  intros H. unfold add_new_uncapped. destruct (z_in _ _) eqn:E; simpl; [done|].
  by apply snoc_nodup.
Qed.

Lemma fold_add_new_nodup (cap : nat) (l acc : list Movie) :
  NoDup (map movie_id acc) -> NoDup (map movie_id (fold_left (add_new cap) l acc)).
Proof.
  revert acc; induction l as [|x l IH]; intros acc H; simpl; [done|].
  apply IH. by apply add_new_nodup.
Qed.

Lemma fold_uncapped_nodup (l acc : list Movie) :
  NoDup (map movie_id acc) -> NoDup (map movie_id (fold_left add_new_uncapped l acc)).
Proof.
  revert acc; induction l as [|x l IH]; intros acc H; simpl; [done|].
  apply IH. by apply add_new_uncapped_nodup.
Qed.

Lemma fold_add_new_length (cap : nat) (l acc : list Movie) :
  (length acc <= cap)%nat -> (length (fold_left (add_new cap) l acc) <= cap)%nat.
Proof.
  revert acc; induction l as [|x l IH]; intros acc H; simpl; [done|].
  apply IH. unfold add_new. destruct (negb _); simpl; [|done].
  destruct (Nat.ltb_spec (length acc) cap); simpl; [rewrite length_app; simpl; lia|done].
Qed.

Definition fill_step (n : nat) (acc : list Movie) (m : Movie) : list Movie :=
  if (n <=? length acc)%nat then acc
  else if negb (z_in (movie_id m) (map movie_id acc)) then acc ++ [m] else acc.

Lemma fill_remaining_fold (n : nat) (recs pool : list Movie) :
  fill_remaining n recs pool =
  if (length recs <? n)%nat then
    fold_left (fill_step n)
      (List.filter (fun m => negb (z_in (movie_id m) (map movie_id recs))) pool) recs
  else recs.
Proof. reflexivity. Qed.

Lemma fold_fill_nodup (n : nat) (l acc : list Movie) :
  NoDup (map movie_id acc) -> NoDup (map movie_id (fold_left (fill_step n) l acc)).
Proof.
  revert acc; induction l as [|x l IH]; intros acc H; simpl; [done|].
  apply IH. unfold fill_step. destruct (_ <=? _)%nat; [done|].
  destruct (z_in _ _) eqn:E; simpl; [done|]. by apply snoc_nodup.
Qed.

Lemma fill_remaining_nodup (n : nat) (recs pool : list Movie) :
  NoDup (map movie_id recs) -> NoDup (map movie_id (fill_remaining n recs pool)).
Proof.
  intros H. rewrite fill_remaining_fold. destruct (_ <? _)%nat; [|done].
  by apply fold_fill_nodup.
Qed.

Lemma warm_tail_nodup (n : nat) (a b c : list Movie) (iw cw : nat) (recs : list Movie) :
  NoDup (map movie_id recs) -> NoDup (map movie_id (warm_tail n a b c iw cw recs)).
Proof.
  intros H. unfold warm_tail. apply fill_remaining_nodup.
  apply fold_add_new_nodup, fold_add_new_nodup, H.
Qed.

Lemma compose_warm_nodup (n : nat) (a b c : list Movie) :
  NoDup (map movie_id (compose_warm n a b c)).
Proof.
  unfold compose_warm. apply warm_tail_nodup, fold_uncapped_nodup. constructor.
Qed.

Lemma compose_warm_embeddings_nodup (n : nat) (e a b c : list Movie) :
  NoDup (map movie_id (compose_warm_embeddings n e a b c)).
Proof.
  unfold compose_warm_embeddings. apply warm_tail_nodup, fold_add_new_nodup,
    fold_uncapped_nodup. constructor.
Qed.

Lemma cold_start_nodup_length (d : Database) (u : option User) (uid : Z) (n : nat)
    (context : option Context) :
  NoDup (map movie_id (cold_start_recommendations d u uid n context)) /\
  (length (cold_start_recommendations d u uid n context) <= n)%nat.
Proof.
  unfold cold_start_recommendations.
  set (r1 := match u with
             | Some usr => if prefs_truthy (genre_preferences usr)
                           then fold_left (add_new n) (get_genre_based_recommendations d uid n) []
                           else []
             | None => [] end).
  assert (H1 : NoDup (map movie_id r1) /\ (length r1 <= n)%nat).
  { subst r1. destruct u as [usr|]; [|split; [constructor|simpl; lia]].
    destruct (prefs_truthy _); [|split; [constructor|simpl; lia]].
    split; [apply fold_add_new_nodup; constructor|apply fold_add_new_length; simpl; lia]. }
  set (r2 := match u with
             | Some usr =>
                 if (length r1 <? n)%nat && (z_truthy (age usr) || str_truthy (location usr))
                 then fold_left (add_new n) (get_demographic_recommendations d uid (n - length r1)) r1
                 else r1
             | None => r1 end).
  assert (H2 : NoDup (map movie_id r2) /\ (length r2 <= n)%nat).
  { subst r2. destruct u as [usr|]; [|exact H1].
    destruct ((length r1 <? n)%nat && _); [|exact H1].
    split; [apply fold_add_new_nodup, H1|apply fold_add_new_length, H1]. }
  set (r3 := if (length r2 <? n)%nat
             then fold_left (add_new n) (_get_popular_movies d (n - length r2) uid) r2 else r2).
  assert (H3 : NoDup (map movie_id r3) /\ (length r3 <= n)%nat).
  { subst r3. destruct (length r2 <? n)%nat; [|exact H2].
    split; [apply fold_add_new_nodup, H2|apply fold_add_new_length, H2]. }
  set (r4 := match context with
             | Some c => if (0 <? length r3)%nat then _apply_temporal_filtering r3 c else r3
             | None => r3 end).
  assert (H4 : NoDup (map movie_id r4) /\ (length r4 <= n)%nat).
  { subst r4. destruct context as [c|]; [|exact H3]. destruct (0 <? length r3)%nat; [|exact H3].
    pose proof (rerank_by_score_perm
      (temporal_score (time_genre_preferences (time_period (temporal c)))
         (if is_weekend (temporal c)
          then ["Action"; "Adventure"; "Science Fiction"; "Fantasy"; "Drama"]
          else ["Comedy"; "Animation"; "Romance"; "Documentary"]) (is_weekend (temporal c))) r3)
      as Hp.
    unfold _apply_temporal_filtering. rewrite Hp. done. }
  destruct (filter_disliked_nodup_length d r4 uid (proj1 H4)) as [Ha Hb].
  split; [done|]. lia.
Qed.

Lemma warm_finish_nodup_length (d : Database) (context : option Context) (uid : Z) (n : nat)
    (hybrid : list Movie) :
  NoDup (map movie_id hybrid) ->
  NoDup (map movie_id (firstn n (_filter_disliked_genres d (rerank context hybrid) uid))) /\
  (length (firstn n (_filter_disliked_genres d (rerank context hybrid) uid)) <= n)%nat.
Proof.
  intros H. split; [|rewrite length_firstn; lia].
  apply nodup_map_firstn. apply filter_disliked_nodup_length.
  destruct context as [c|]; [|done]. unfold rerank.
  unfold _apply_diversity_boost, _apply_diversity_boost_with, _apply_temporal_filtering.
  case_bool_decide; rewrite ?rerank_by_score_perm; done.
Qed.

(** X1: The hybrid list never names a movie twice and never has more than [n]
    entries, on the cold-start and on the warm path, with or without
    context and embeddings, whatever the numeric kernels return. *)
Theorem hybrid_distinct_and_bounded cos ts emb (s : Store) (uid : Z) (n : nat)
    (use_context use_embeddings : bool) (now_hour now_weekday : Z) :
  let res := fst (get_hybrid_recommendations cos ts emb uid n use_context use_embeddings
                    now_hour now_weekday s) in
  NoDup (map movie_id res) /\ (length res <= n)%nat.
Proof.
  unfold get_hybrid_recommendations, _is_cold_start_user, st_bind, st_read, st_ret.
  cbn [fst snd].
  destruct (_ <? cold_start_threshold)%nat; [apply cold_start_nodup_length|].
  destruct use_embeddings.
  - destruct (get_embedding_recommendations cos ts emb uid n s) as [e s1].
    destruct (get_svd_recommendations cos ts uid n s1) as [v s2]. cbn [fst snd].
    destruct use_context;
      [apply (warm_finish_nodup_length _ (Some _))|apply (warm_finish_nodup_length _ None)];
      apply compose_warm_embeddings_nodup.
  - destruct (get_svd_recommendations cos ts uid n s) as [v s2]. cbn [fst snd].
    destruct use_context;
      [apply (warm_finish_nodup_length _ (Some _))|apply (warm_finish_nodup_length _ None)];
      apply compose_warm_nodup.
Qed.

(** ** Size of the warm composition *)

(** The set of movie ids of a candidate list. *)
Definition ids_set (l : list Movie) : gset Z := list_to_set (map movie_id l).

Lemma ids_set_app (l1 l2 : list Movie) : ids_set (l1 ++ l2) = ids_set l1 ∪ ids_set l2.
Proof. unfold ids_set. rewrite map_app. apply list_to_set_app_L. Qed.

Lemma ids_set_cons (m : Movie) (l : list Movie) : ids_set (m :: l) = {[movie_id m]} ∪ ids_set l.
Proof. reflexivity. Qed.

Lemma elem_of_ids_set (k : Z) (l : list Movie) : k ∈ ids_set l <-> In k (map movie_id l).
Proof. unfold ids_set. by rewrite elem_of_list_to_set, list_elem_of_In. Qed.

Lemma size_ids_set (l : list Movie) : NoDup (map movie_id l) -> size (ids_set l) = length l.
Proof. intros H. unfold ids_set. rewrite size_list_to_set by done. apply length_map. Qed.

Lemma fold_fill_length (n : nat) (l acc : list Movie) :
  NoDup (map movie_id acc) -> (length acc <= n)%nat ->
  length (fold_left (fill_step n) l acc) = Nat.min n (size (ids_set acc ∪ ids_set l)).
Proof.
  revert acc; induction l as [|x l IH]; intros acc Hnd Hlen; simpl.
  - replace (ids_set []) with (∅ : gset Z) by done.
    rewrite union_empty_r_L, size_ids_set by done. lia.
  - unfold fill_step at 2. destruct (Nat.leb_spec n (length acc)).
    + rewrite IH by done.
      assert (Ha : size (ids_set acc) = n) by (rewrite size_ids_set by done; lia).
      assert (H1 : (n <= size (ids_set acc ∪ ids_set l))%nat)
        by (rewrite <- Ha; apply subseteq_size; set_solver).
      assert (H2 : (n <= size (ids_set acc ∪ ids_set (x :: l)))%nat)
        by (rewrite <- Ha; apply subseteq_size; set_solver).
      lia.
    + destruct (z_in (movie_id x) (map movie_id acc)) eqn:E; simpl.
      * rewrite IH by done. f_equal. f_equal. rewrite ids_set_cons.
        apply z_in_true, elem_of_ids_set in E. set_solver.
      * rewrite IH; [|by apply snoc_nodup|rewrite length_app; simpl; lia].
        f_equal. f_equal. rewrite ids_set_app, ids_set_cons. set_solver.
Qed.

Lemma ids_set_filter_fresh (recs pool : list Movie) :
  ids_set recs ∪ ids_set (List.filter (fun m => negb (z_in (movie_id m) (map movie_id recs))) pool)
  = ids_set recs ∪ ids_set pool.
Proof.
  apply set_eq. intros k. rewrite !elem_of_union, !elem_of_ids_set. split.
  - intros [H|H]; [by left|right]. apply in_map_iff in H as (m & <- & Hm).
    apply filter_In in Hm as [Hm _]. by apply in_map.
  - intros [H|H]; [by left|]. apply in_map_iff in H as (m & <- & Hm).
    destruct (z_in (movie_id m) (map movie_id recs)) eqn:E.
    + left. by apply z_in_true.
    + right. apply in_map, filter_In. rewrite E. done.
Qed.

Lemma fill_remaining_length (n : nat) (recs pool : list Movie) :
  NoDup (map movie_id recs) -> (length recs <= n)%nat ->
  length (fill_remaining n recs pool) = Nat.min n (size (ids_set recs ∪ ids_set pool)).
Proof.
  intros Hnd Hlen. rewrite fill_remaining_fold.
  destruct (Nat.ltb_spec (length recs) n).
  - rewrite fold_fill_length by done. by rewrite ids_set_filter_fresh.
  - assert (Ha : size (ids_set recs) = n) by (rewrite size_ids_set by done; lia).
    assert ((n <= size (ids_set recs ∪ ids_set pool))%nat)
      by (rewrite <- Ha; apply subseteq_size; set_solver).
    lia.
Qed.

Lemma fold_add_new_In (cap : nat) (l acc : list Movie) (m : Movie) :
  (In m acc -> In m (fold_left (add_new cap) l acc)) /\
  (In m (fold_left (add_new cap) l acc) -> In m acc \/ In m l).
Proof.
  revert acc; induction l as [|x l IH]; intros acc; simpl; [tauto|].
  destruct (IH (add_new cap acc x)) as [H1 H2].
  assert (Hx : forall y, In y (add_new cap acc x) <-> In y acc \/ (add_new cap acc x <> acc /\ y = x)).
  { intros y. unfold add_new. destruct (negb _ && _).
    - rewrite in_app_iff. simpl. split; [intros [H|[H|[]]]; [by left|right; split; [|done]]|].
      + intros Heq. apply (f_equal (@length Movie)) in Heq. rewrite length_app in Heq. simpl in Heq. lia.
      + intros [H|[_ ->]]; [by left|right; by left].
    - tauto. }
  split.
  - intros H. apply H1, Hx. by left.
  - intros H. destruct (H2 H) as [Hy|Hy]; [|tauto]. apply Hx in Hy. destruct Hy as [Hy|[_ ->]]; tauto.
Qed.

Lemma fold_add_new_incl (cap : nat) (l acc : list Movie) :
  ids_set acc ⊆ ids_set (fold_left (add_new cap) l acc) /\
  ids_set (fold_left (add_new cap) l acc) ⊆ ids_set acc ∪ ids_set l.
Proof.
  split; intros k; rewrite ?elem_of_union, !elem_of_ids_set; intros Hk;
    apply in_map_iff in Hk as (m & <- & Hm).
  - apply in_map. by apply fold_add_new_In.
  - apply fold_add_new_In in Hm as [Hm|Hm]; [left|right]; by apply in_map.
Qed.

Lemma fold_uncapped_ids (l acc : list Movie) :
  ids_set (fold_left add_new_uncapped l acc) = ids_set acc ∪ ids_set l.
Proof.
  revert acc; induction l as [|x l IH]; intros acc; simpl.
  - replace (ids_set []) with (∅ : gset Z) by done. by rewrite union_empty_r_L.
  - rewrite IH, ids_set_cons. unfold add_new_uncapped.
    destruct (z_in (movie_id x) (map movie_id acc)) eqn:E; simpl.
    + apply z_in_true, elem_of_ids_set in E. apply set_eq. intros k.
      rewrite !elem_of_union, elem_of_singleton. split; [tauto|].
      intros [H|[->|H]]; tauto.
    + rewrite ids_set_app, ids_set_cons. apply set_eq. intros k.
      rewrite !elem_of_union. replace (ids_set []) with (∅ : gset Z) by done.
      rewrite elem_of_empty. tauto.
Qed.

Lemma ids_set_firstn (k : nat) (l : list Movie) : ids_set (firstn k l) ⊆ ids_set l.
Proof.
  intros x. rewrite !elem_of_ids_set. intros H.
  apply in_map_iff in H as (m & <- & Hm). apply in_map. by apply (firstn_in k).
Qed.

Lemma warm_tail_length (n : nat) (a b c : list Movie) (iw cw : nat) (recs : list Movie) :
  NoDup (map movie_id recs) -> (length recs <= n)%nat ->
  length (warm_tail n a b c iw cw recs) =
  Nat.min n (size (ids_set recs ∪ ids_set (a ++ b ++ c))).
Proof.
  intros Hnd Hlen. unfold warm_tail.
  set (r1 := fold_left (add_new n) (firstn iw b) recs).
  set (r2 := fold_left (add_new n) (firstn cw c) r1).
  rewrite fill_remaining_length.
  - f_equal. f_equal.
    destruct (fold_add_new_incl n (firstn iw b) recs) as [H1 H2].
    destruct (fold_add_new_incl n (firstn cw c) r1) as [H3 H4].
    pose proof (ids_set_firstn iw b) as H5. pose proof (ids_set_firstn cw c) as H6.
    fold r1 in H1, H2. fold r2 in H3, H4.
    apply set_eq. intros k. rewrite !ids_set_app, !elem_of_union.
    rewrite elem_of_subseteq in H1, H2, H3, H4, H5, H6.
    specialize (H1 k). specialize (H2 k). specialize (H3 k). specialize (H4 k).
    specialize (H5 k). specialize (H6 k). rewrite !elem_of_union in H2, H4.
    tauto.
  - apply fold_add_new_nodup, fold_add_new_nodup, Hnd.
  - apply fold_add_new_length, fold_add_new_length, Hlen.
Qed.

(** X2: The warm composition is as long as the candidates allow: without
    embeddings it has [min(n, d)] entries, [d] the number of distinct movie
    ids among the latent-factor, item-based and content candidates; with
    embeddings the embedding slice of [int(n * 0.4)] counts as a fourth
    source (the fill pool does not contain the rest of the embedding list). *)
Theorem warm_composition_size (n : nat) (e a b c : list Movie) :
  length (compose_warm n a b c) = Nat.min n (size (ids_set (a ++ b ++ c))) /\
  length (compose_warm_embeddings n e a b c) =
    Nat.min n (size (ids_set (firstn (2 * n / 5) e) ∪ ids_set (a ++ b ++ c))).
Proof.
  split.
  - unfold compose_warm. set (r0 := fold_left add_new_uncapped (firstn (svd_weight n) a) []).
    rewrite warm_tail_length.
    + f_equal. f_equal. pose proof (fold_uncapped_ids (firstn (svd_weight n) a) []) as H.
      pose proof (ids_set_firstn (svd_weight n) a) as H'. fold r0 in H. rewrite H.
      apply set_eq. intros k. rewrite !elem_of_union, ids_set_app, elem_of_union.
      rewrite elem_of_subseteq in H'. specialize (H' k).
      replace (ids_set []) with (∅ : gset Z) by done. rewrite elem_of_empty. tauto.
    + apply fold_uncapped_nodup. constructor.
    + pose proof (fold_uncapped_length (firstn (svd_weight n) a) []) as H.
      rewrite length_firstn in H. fold r0 in H. simpl in H.
      assert (svd_weight n <= n)%nat by (pose proof (warm_weights_sum n); lia). lia.
  - unfold compose_warm_embeddings.
    set (r0 := fold_left add_new_uncapped (firstn (2 * n / 5) e) []).
    set (r1 := fold_left (add_new n) (firstn (3 * n / 10) a) r0).
    assert (Hr0 : (length r0 <= n)%nat).
    { pose proof (fold_uncapped_length (firstn (2 * n / 5) e) []) as H.
      rewrite length_firstn in H. fold r0 in H. cbn [length] in H.
      assert (2 * n / 5 <= n)%nat.
      { apply Nat.Div0.div_le_upper_bound. lia. }
      lia. }
    rewrite warm_tail_length.
    + f_equal. f_equal.
      pose proof (fold_uncapped_ids (firstn (2 * n / 5) e) []) as H0. fold r0 in H0.
      replace (ids_set []) with (∅ : gset Z) in H0 by done. rewrite union_empty_l_L in H0.
      destruct (fold_add_new_incl n (firstn (3 * n / 10) a) r0) as [H1 H2]. fold r1 in H1, H2.
      pose proof (ids_set_firstn (3 * n / 10) a) as H3.
      apply set_eq. intros k. rewrite !elem_of_union, !ids_set_app, !elem_of_union.
      rewrite H0 in H1, H2. rewrite elem_of_subseteq in H1, H2, H3.
      specialize (H1 k). specialize (H2 k). specialize (H3 k).
      rewrite !elem_of_union in H2. tauto.
    + apply fold_add_new_nodup, fold_uncapped_nodup. constructor.
    + by apply fold_add_new_length.
Qed.

(** ** The stable descending sort sorts *)

Section SortOrder.
Context {A K : Type} (key : A -> K) (ltb : K -> K -> bool).
Hypothesis ltb_asym : forall a b, ltb a b = true -> ltb b a = false.

(** [x] may come before [y]: the key of [x] is not below the key of [y]. *)
Definition desc_ok (x y : A) : Prop := ltb (key x) (key y) = false.

Lemma insert_desc_sorted (x : A) (l : list A) :
  Sorted desc_ok l -> Sorted desc_ok (insert_desc key ltb x l).
Proof.
  induction l as [|y t IH]; intros H; simpl; [by repeat constructor|].
  destruct (ltb (key y) (key x)) eqn:E.
  - constructor; [exact H|]. constructor. unfold desc_ok. by apply ltb_asym.
  - inversion H as [|? ? Ht Hhd]; subst. constructor; [by apply IH|].
    destruct t as [|z t']; simpl; [by constructor|].
    destruct (ltb (key z) (key x)); constructor; [done|by inversion Hhd].
Qed.

Lemma sort_desc_sorted (l : list A) : Sorted desc_ok (sort_desc key ltb l).
Proof.
  unfold sort_desc. cut (forall acc, Sorted desc_ok acc ->
    Sorted desc_ok (fold_left (fun acc x => insert_desc key ltb x acc) l acc)).
  { intros H. apply H. constructor. }
  induction l as [|x l IH]; intros acc H; simpl; [done|].
  apply IH. by apply insert_desc_sorted.
Qed.
End SortOrder.

Lemma sorted_firstn {A} (R : A -> A -> Prop) (n : nat) (l : list A) :
  Sorted R l -> Sorted R (firstn n l).
Proof.
  revert l; induction n as [|n IH]; intros [|x l] H; simpl; [constructor..|].
  inversion H as [|? ? Hl Hhd]; subst. constructor; [by apply IH|].
  destruct n as [|n]; [constructor|]. destruct l as [|y l]; [constructor|].
  simpl. constructor. by inversion Hhd.
Qed.

Lemma sorted_impl {A} (R S : A -> A -> Prop) (l : list A) :
  (forall x y, R x y -> S x y) -> Sorted R l -> Sorted S l.
Proof.
  intros HRS H. induction H as [|x l Hl IH Hhd]; constructor; [done|].
  destruct Hhd; constructor. by apply HRS.
Qed.

Lemma Qltb_asym (a b : Q) : Qltb a b = true -> Qltb b a = false.
Proof.
  unfold Qltb. intros H. apply negb_true_iff in H. apply negb_false_iff, Qle_bool_iff.
  apply Qlt_le_weak, Qnot_le_lt. intros Hle. apply Qle_bool_iff in Hle. congruence.
Qed.

Lemma vote_average_ltb_asym (a b : option Q) :
  vote_average_ltb a b = true -> vote_average_ltb b a = false.
Proof. destruct a, b; simpl; try done. apply Qltb_asym. Qed.

(** ** Popular movies *)

(** [ORDER BY vote_average DESC] in PostgreSQL: NULL first, then
    non-increasing averages. *)
Definition vote_average_order (a b : Movie) : Prop :=
  match vote_average a, vote_average b with
  | None, _ => True
  | Some _, None => False
  | Some x, Some y => (y <= x)%Q
  end.

Lemma sort_desc_In {A K} (key : A -> K) (ltb : K -> K -> bool) (l : list A) (x : A) :
  In x (sort_desc key ltb l) <-> In x l.
Proof. split; apply Permutation_in; [|symmetry]; apply sort_desc_perm. Qed.

Lemma popular_In (d : Database) (n : nat) (uid : Z) (m : Movie) :
  In m (_get_popular_movies d n uid) ->
  In m (movies d) /\ vote_count_at_least 100 m = true /\
  (uid <> 0 -> ~ In (movie_id m) (interacted_movie_ids d uid ++ _get_excluded_movie_ids d uid)).
Proof.
  unfold _get_popular_movies. intros H. apply firstn_in, sort_desc_In in H.
  destruct (Z.eqb_spec uid 0) as [->|Hu]; simpl in H.
  - apply filter_In in H. split; [tauto|split; [tauto|done]].
  - case_bool_decide as Hs.
    + apply filter_In in H. split; [tauto|split; [tauto|]]. rewrite Hs. intros _ [].
    + apply filter_In in H as [H Hn]. apply filter_In in H.
      split; [tauto|split; [tauto|]]. intros _. apply negb_true_iff, z_in_false in Hn. done.
Qed.

(** X3: [_get_popular_movies(n, user_id)] returns at most [n] movies, each with
    at least 100 votes, ordered by vote average (NULL first, then
    descending); for a user id other than 0 none of them was rated,
    favorited or put on the watchlist by that user. *)
Theorem popular_movies_spec (d : Database) (n : nat) (uid : Z) :
  let res := _get_popular_movies d n uid in
  (length res <= n)%nat /\
  (forall m, In m res ->
     In m (movies d) /\ (exists c, vote_count m = Some c /\ 100 <= c) /\
     (uid <> 0 -> ~ In (movie_id m) (interacted_movie_ids d uid))) /\
  Sorted vote_average_order res.
Proof.
  intros res. split; [|split].
  - subst res. unfold _get_popular_movies. rewrite length_firstn. lia.
  - intros m Hm. apply popular_In in Hm as (H1 & H2 & H3). split; [done|split].
    + unfold vote_count_at_least in H2. destruct (vote_count m) as [c|]; [|done].
      exists c. split; [done|]. by apply Z.leb_le.
    + intros Hu Hin. apply (H3 Hu), in_or_app. by left.
  - subst res. unfold _get_popular_movies. apply sorted_firstn.
    eapply sorted_impl; [|apply (sort_desc_sorted vote_average vote_average_ltb
                                   vote_average_ltb_asym)].
    intros x y. unfold desc_ok, vote_average_order.
    destruct (vote_average x) as [a|], (vote_average y) as [b|]; simpl; try done.
    unfold Qltb. intros H. apply negb_false_iff, Qle_bool_iff in H. done.
Qed.

(** ** What the candidate generators never return *)

Lemma excluded_interacted (d : Database) (uid k : Z) :
  In k (_get_excluded_movie_ids d uid) -> In k (interacted_movie_ids d uid).
Proof.
  unfold _get_excluded_movie_ids, interacted_movie_ids. intros H. apply in_or_app. left.
  apply in_map_iff in H as (r & <- & Hr). apply filter_In in Hr as [Hr _]. by apply in_map.
Qed.

Lemma order_by_ids_In (found : list Movie) (ids : list Z) (m : Movie) :
  In m (order_by_ids found ids) -> In m found /\ In (movie_id m) ids.
Proof.
  unfold order_by_ids. intros H. apply in_flat_map in H as (i & Hi & Hm).
  destruct (find _ found) as [m'|] eqn:E; [|done]. destruct Hm as [<-|[]].
  apply find_some in E as [Hf Heq]. apply Z.eqb_eq in Heq. rewrite Heq. done.
Qed.

Lemma order_by_ids_length (found : list Movie) (ids : list Z) :
  (length (order_by_ids found ids) <= length ids)%nat.
Proof.
  unfold order_by_ids. induction ids as [|i ids IH]; simpl; [lia|].
  destruct (find _ found); simpl; lia.
Qed.

Lemma fetch_movies_In (d : Database) (ids : list Z) (m : Movie) :
  In m (fetch_movies d ids) -> In m (movies d) /\ In (movie_id m) ids.
Proof.
  unfold fetch_movies. intros H. apply filter_In in H as [H1 H2].
  apply z_in_true in H2. done.
Qed.

Lemma map_fst_firstn_sort_In {A} (n : nat) (l : list (A * Q)) (x : A) :
  In x (map fst (firstn n (sort_by_score l))) -> exists q, In (x, q) l.
Proof.
  intros H. apply in_map_iff in H as ([y q] & <- & H). apply firstn_in in H.
  unfold sort_by_score in H. apply sort_desc_In in H. by exists q.
Qed.

Lemma map_fst_firstn_length {A B} (n : nat) (l : list (A * B)) :
  (length (map fst (firstn n l)) <= n)%nat.
Proof. rewrite length_map, length_firstn. lia. Qed.

(** X4: [get_genre_based_recommendations(user_id, n)] returns at most [n]
    catalogue movies and, for a user id other than 0, never one the user
    rated 2 stars or less. *)
Theorem genre_based_avoids_low_rated (d : Database) (uid : Z) (n : nat) (Hu : uid <> 0) :
  let res := get_genre_based_recommendations d uid n in
  (length res <= n)%nat /\
  (forall m, In m res -> In m (movies d) /\ ~ In (movie_id m) (_get_excluded_movie_ids d uid)).
Proof.
  assert (Hpop : forall k, (length (_get_popular_movies d k uid) <= k)%nat /\
    forall m, In m (_get_popular_movies d k uid) ->
      In m (movies d) /\ ~ In (movie_id m) (_get_excluded_movie_ids d uid)).
  { intros k. split; [unfold _get_popular_movies; rewrite length_firstn; lia|].
    intros m Hm. apply popular_In in Hm as (H1 & _ & H3). split; [done|].
    intros Hin. apply (H3 Hu), in_or_app. by right. }
  intros res. subst res. unfold get_genre_based_recommendations.
  destruct (find_user d uid) as [u|]; [|apply Hpop].
  destruct (genre_preferences u) as [[|p prefs]|]; try apply Hpop.
  case_bool_decide; [apply Hpop|]. split; [apply map_fst_firstn_length|].
  intros m Hm. apply map_fst_firstn_sort_In in Hm as (q & Hq).
  apply in_flat_map in Hq as (m' & Hm' & Hq).
  destruct (z_in (movie_id m') _) eqn:E; [done|].
  destruct (match genres m' with GList gs => Some gs | GNull => Some [] | GText d => d end)
    as [gs|]; [|done].
  destruct (0 <? _)%nat; [|done]. destruct Hq as [Hq|[]]. injection Hq as <- _.
  apply filter_In in Hm' as [Hm' _]. split; [done|]. by apply z_in_false.
Qed.

Lemma liked_fold_In {X} (f : X -> Z) (w : Q) (xs : list X) (acc : list (Z * Q)) (k : Z) :
  In k (map fst acc) \/ In k (map f xs) ->
  In k (map fst (fold_left (fun acc x => liked_with_weight acc (f x) w) xs acc)).
Proof.
  revert acc; induction xs as [|x xs IH]; intros acc H; simpl in *.
  - by destruct H.
  - apply IH. unfold liked_with_weight.
    destruct (existsb (fun p => p.1 =? f x) acc) eqn:E.
    + destruct H as [H|[<-|H]]; [by left| |by right]. left.
      apply existsb_exists in E as ([a b] & Hp & Heq). apply Z.eqb_eq in Heq. simpl in Heq.
      subst. apply in_map_iff. by exists (f x, b).
    + rewrite map_app, in_app_iff. simpl. destruct H as [H|[<-|H]]; tauto.
Qed.

(** X5: [get_content_based_recommendations(user_id, n)] returns at most [n]
    catalogue movies and, for a user id other than 0, never one the user
    has rated, favorited or put on the watchlist. *)
Theorem content_based_avoids_seen (d : Database) (uid : Z) (n : nat) (Hu : uid <> 0) :
  let res := get_content_based_recommendations d uid n in
  (length res <= n)%nat /\
  (forall m, In m res -> In m (movies d) /\ ~ In (movie_id m) (interacted_movie_ids d uid)).
Proof.
  assert (Hpop : forall k, (length (_get_popular_movies d k uid) <= k)%nat /\
    forall m, In m (_get_popular_movies d k uid) ->
      In m (movies d) /\ ~ In (movie_id m) (interacted_movie_ids d uid)).
  { intros k. split; [unfold _get_popular_movies; rewrite length_firstn; lia|].
    intros m Hm. apply popular_In in Hm as (H1 & _ & H3). split; [done|].
    intros Hin. apply (H3 Hu), in_or_app. by left. }
  intros res. subst res. unfold get_content_based_recommendations.
  set (liked0 := map (fun r => (r_movie_id r, 1%Q))
                   (List.filter (fun r => Qle_bool 4 (r_rating r)) (user_ratings_of d uid))).
  set (liked1 := fold_left (fun acc f => liked_with_weight acc (f_movie_id f) (4#5))
                   (user_favorites_of d uid) liked0).
  set (liked := fold_left (fun acc w => liked_with_weight acc (w_movie_id w) (1#2))
                  (user_watchlist_of d uid) liked1).
  assert (Hseen : forall k, In k (interacted_movie_ids d uid) ->
                   In k (map fst liked ++ map r_movie_id (user_ratings_of d uid))).
  { intros k Hk. unfold interacted_movie_ids in Hk. rewrite !in_app_iff in Hk.
    apply in_or_app. destruct Hk as [Hk|[Hk|Hk]]; [by right|left..].
    - apply liked_fold_In. left. apply liked_fold_In. by right.
    - apply liked_fold_In. by right. }
  destruct liked as [|p l] eqn:El; [apply Hpop|].
  destruct (map fst (firstn 3 _)) as [|g gs]; [apply Hpop|].
  split; [apply map_fst_firstn_length|].
  intros m Hm. apply map_fst_firstn_sort_In in Hm as (q & Hq).
  apply in_flat_map in Hq as (m' & Hm' & Hq).
  destruct (negb (z_in (movie_id m') (map fst (p :: l) ++ map r_movie_id (user_ratings_of d uid)))
            && _) eqn:E; [|done].
  destruct (decode_genres (genres m')) as [gs'|]; [|done].
  destruct (0 <? _)%nat; [|done]. destruct Hq as [Hq|[]]. injection Hq as <- _.
  apply filter_In in Hm' as [Hm' _]. split; [done|].
  apply andb_true_iff in E as [E _]. apply negb_true_iff, z_in_false in E.
  intros Hk. apply E, Hseen, Hk.
Qed.

(** X6: [get_demographic_recommendations(user_id, n)] returns at most [n]
    catalogue movies and, for a user id other than 0, never one the user
    rated 2 stars or less. *)
Theorem demographic_avoids_low_rated (d : Database) (uid : Z) (n : nat) (Hu : uid <> 0) :
  let res := get_demographic_recommendations d uid n in
  (length res <= n)%nat /\
  (forall m, In m res -> In m (movies d) /\ ~ In (movie_id m) (_get_excluded_movie_ids d uid)).
Proof.
  assert (Hpop : forall k, (length (_get_popular_movies d k uid) <= k)%nat /\
    forall m, In m (_get_popular_movies d k uid) ->
      In m (movies d) /\ ~ In (movie_id m) (_get_excluded_movie_ids d uid)).
  { intros k. split; [unfold _get_popular_movies; rewrite length_firstn; lia|].
    intros m Hm. apply popular_In in Hm as (H1 & _ & H3). split; [done|].
    intros Hin. apply (H3 Hu), in_or_app. by right. }
  intros res. subst res. unfold get_demographic_recommendations.
  destruct (find_user d uid) as [u|]; [|apply Hpop].
  destruct (firstn 20 _) as [|v vs]; [apply Hpop|].
  set (top := map fst (firstn n (sort_by_score _))).
  destruct (fetch_movies d top) as [|f fs] eqn:Ef; [apply Hpop|].
  split; [etransitivity; [apply order_by_ids_length|]; subst top; apply map_fst_firstn_length|].
  intros m Hm. apply order_by_ids_In in Hm as [Hf Hid]. rewrite <- Ef in Hf.
  apply fetch_movies_In in Hf as [Hf _]. split; [done|].
  subst top. apply map_fst_firstn_sort_In in Hid as (q & Hq).
  apply in_flat_map in Hq as ([mid [c t]] & _ & Hq).
  destruct (z_in mid _) eqn:E; [done|]. destruct Hq as [Hq|[]]. injection Hq as Hq _.
  subst mid. by apply z_in_false.
Qed.

Lemma add_score_z_keys (P : Z -> Prop) (k : Z) (x : Q) (l : list (Z * Q)) :
  Forall P (map fst l) -> P k -> Forall P (map fst (add_score_z k x l)).
Proof.
  induction l as [|[k' s] l IH]; intros Hl Hk; simpl; [by repeat constructor|].
  inversion Hl; subst. destruct (k =? k'); simpl; constructor; auto.
Qed.

Lemma item_inner_keys (L E : list Z) (xs acc : list (Z * Q)) :
  Forall (fun k => z_in k L = false /\ z_in k E = false) (map fst acc) ->
  Forall (fun k => z_in k L = false /\ z_in k E = false)
    (map fst (fold_left (fun acc p => if negb (z_in p.1 L) && negb (z_in p.1 E)
                                      then add_score_z p.1 p.2 acc else acc) xs acc)).
Proof.
  revert acc; induction xs as [|x xs IH]; intros acc H; simpl; [done|].
  apply IH. destruct (negb (z_in x.1 L)) eqn:E1, (negb (z_in x.1 E)) eqn:E2; simpl; try done.
  apply add_score_z_keys; [done|]. split; by apply negb_true_iff.
Qed.

Lemma item_scores_keys (L E idx : list Z) (sim : list (list Q)) (L' : list Z)
    (acc : list (Z * Q)) :
  Forall (fun k => z_in k L = false /\ z_in k E = false) (map fst acc) ->
  Forall (fun k => z_in k L = false /\ z_in k E = false)
    (map fst (fold_left (fun acc mid =>
       match index_of mid idx with
       | None => acc
       | Some j =>
           let column := imap (fun i sid => (sid, nth j (nth i sim []) 0%Q)) idx in
           let similar_movies := firstn 20 (skipn 1 (sort_by_score column)) in
           fold_left (fun acc p =>
             if negb (z_in p.1 L) && negb (z_in p.1 E)
             then add_score_z p.1 p.2 acc else acc) similar_movies acc
       end) L' acc)).
Proof.
  revert acc; induction L' as [|x L' IH]; intros acc H; simpl; [done|].
  apply IH. destruct (index_of x idx); [|done]. by apply item_inner_keys.
Qed.

Lemma item_result (d : Database) (L E : list Z) (n : nat) (scores : list (Z * Q)) :
  Forall (fun k => z_in k L = false /\ z_in k E = false) (map fst scores) ->
  let top := map fst (firstn n (sort_by_score scores)) in
  (length (order_by_ids (fetch_movies d top) top) <= n)%nat /\
  (forall m, In m (order_by_ids (fetch_movies d top) top) ->
     In m (movies d) /\ ~ In (movie_id m) E /\ ~ In (movie_id m) L).
Proof.
  intros H top. split.
  - etransitivity; [apply order_by_ids_length|]. apply map_fst_firstn_length.
  - intros m Hm. apply order_by_ids_In in Hm as [Hf Hid].
    apply fetch_movies_In in Hf as [Hf _]. split; [done|].
    apply map_fst_firstn_sort_In in Hid as (q & Hq).
    rewrite Forall_forall in H. destruct (H (movie_id m)) as [H1 H2].
    { apply list_elem_of_In, in_map_iff. by exists (movie_id m, q). }
    split; by apply z_in_false.
Qed.

Lemma item_based_facts cos (d : Database) (uid : Z) (n : nat) (Hu : uid <> 0) :
  let res := get_item_based_recommendations cos d uid n in
  let high := map r_movie_id (List.filter (fun r => Qle_bool 4 (r_rating r)) (user_ratings_of d uid)) in
  (length res <= n)%nat /\
  (forall m, In m res -> In m (movies d) /\
     ~ In (movie_id m) (_get_excluded_movie_ids d uid) /\ ~ In (movie_id m) high).
Proof.
  intros res high.
  assert (Hhigh : forall k, In k high -> In k (interacted_movie_ids d uid)).
  { intros k Hk. subst high. apply in_map_iff in Hk as (r & <- & Hr).
    apply filter_In in Hr as [Hr _]. apply in_or_app. left. by apply in_map. }
  assert (Hpop : forall k, (length (_get_popular_movies d k uid) <= k)%nat /\
    forall m, In m (_get_popular_movies d k uid) -> In m (movies d) /\
      ~ In (movie_id m) (_get_excluded_movie_ids d uid) /\ ~ In (movie_id m) high).
  { intros k. split; [unfold _get_popular_movies; rewrite length_firstn; lia|].
    intros m Hm. apply popular_In in Hm as (H1 & _ & H3). split; [done|].
    split; intros Hin; apply (H3 Hu), in_or_app; [by right|left]. by apply Hhigh. }
  subst res. unfold get_item_based_recommendations.
  destruct (List.filter (fun r => Qle_bool 4 (r_rating r)) (user_ratings_of d uid))
    as [|r rs] eqn:Ehigh.
  - destruct (user_favorites_of d uid) as [|f fs]; [apply Hpop|].
    destruct (length (ratings d) <? 10)%nat; [apply Hpop|].
    destruct (length (dedup_first_z _) <? 2)%nat; [apply Hpop|].
    cbv zeta. match goal with |- context [map fst (firstn n (sort_by_score ?sc))] =>
      destruct (item_result d (map f_movie_id (f :: fs)) (_get_excluded_movie_ids d uid) n sc)
        as [Hl Hm]; [apply item_scores_keys; constructor|] end.
    split; [apply Hl|]. intros m Hin. destruct (Hm m Hin) as (H1 & H2 & _).
    subst high. split; [done|split; [done|]]. intros [].
  - destruct (length (ratings d) <? 10)%nat; [apply Hpop|].
    destruct (length (dedup_first_z _) <? 2)%nat; [apply Hpop|].
    cbv zeta. match goal with |- context [map fst (firstn n (sort_by_score ?sc))] =>
      destruct (item_result d (map r_movie_id (r :: rs)) (_get_excluded_movie_ids d uid) n sc)
        as [Hl Hm]; [apply item_scores_keys; constructor|] end.
    split; [apply Hl|]. intros m Hin. destruct (Hm m Hin) as (H1 & H2 & H3).
    subst high. split; [done|split; done].
Qed.

(** X7: [get_item_based_recommendations(user_id, n)] returns at most [n]
    catalogue movies and, for a user id other than 0, never one the user
    rated 2 stars or less nor one the user rated 4 stars or more, whatever
    the similarity kernel returns. *)
Theorem item_based_avoids_rated cos (d : Database) (uid : Z) (n : nat) (Hu : uid <> 0) :
  let res := get_item_based_recommendations cos d uid n in
  let high := map r_movie_id (List.filter (fun r => Qle_bool 4 (r_rating r)) (user_ratings_of d uid)) in
  (length res <= n)%nat /\
  (forall m, In m res -> In m (movies d) /\
     ~ In (movie_id m) (_get_excluded_movie_ids d uid) /\ ~ In (movie_id m) high).
Proof. apply item_based_facts, Hu. Qed.


Lemma index_of_from_present (x : Z) (l : list Z) (i : nat) :
  In x l -> index_of_from x l i <> None.
Proof.
  revert i; induction l as [|y t IH]; intros i H; simpl in *; [done|].
  destruct (Z.eqb_spec x y); [done|]. apply IH. destruct H; [congruence|done].
Qed.

Lemma svd_scores_keys (seen : list Z) (pred : list Q) (xs : list (nat * Z)) (k : Z) (q : Q) :
  In (k, q) (flat_map (fun p => if z_in p.2 seen then [] else [(p.2, nth p.1 pred 0%Q)]) xs) ->
  ~ In k seen.
Proof.
  intros H. apply in_flat_map in H as ([i k'] & _ & H). simpl in H.
  destruct (z_in k' seen) eqn:E; [done|]. destruct H as [H|[]]. injection H as <- _.
  by apply z_in_false.
Qed.

(** X9: [get_svd_recommendations(user_id, n)] returns at most [n] catalogue
    movies and, for a user id other than 0, never one the user rated 2
    stars or less; when a cached model covers the user, none of the
    returned movies was rated, favorited or put on the watchlist by the
    user. *)
Theorem svd_recommendations_avoid_seen cos ts (s : Store) (uid : Z) (n : nat) (Hu : uid <> 0) :
  let res := fst (get_svd_recommendations cos ts uid n s) in
  (length res <= n)%nat /\
  (forall m, In m res ->
     In m (movies (db s)) /\ ~ In (movie_id m) (_get_excluded_movie_ids (db s) uid)) /\
  (_svd_model s <> None -> In uid (default [] (_svd_user_ids s)) ->
   forall m, In m res -> ~ In (movie_id m) (interacted_movie_ids (db s) uid)).
Proof.
  assert (Hitem : forall d : Database, (length (get_item_based_recommendations cos d uid n) <= n)%nat /\
    forall m, In m (get_item_based_recommendations cos d uid n) ->
      In m (movies d) /\ ~ In (movie_id m) (_get_excluded_movie_ids d uid)).
  { intros d. destruct (item_based_facts cos d uid n Hu) as [H1 H2].
    split; [done|]. intros m Hm. destruct (H2 m Hm) as (? & ? & _). done. }
  (* the list computed from a model that covers the user *)
  assert (Hmodel : forall s' : Store, forall j,
    let user_factors := nth j (default [] (_svd_user_factors s')) [] in
    let predicted := map (dot user_factors) (default [] (_svd_item_factors s')) in
    let seen := interacted_movie_ids (db s') uid ++ _get_excluded_movie_ids (db s') uid in
    let scores := flat_map (fun p => if z_in p.2 seen then [] else [(p.2, nth p.1 predicted 0%Q)])
                    (imap pair (default [] (_svd_movie_ids s'))) in
    let top := map fst (firstn n (sort_by_score scores)) in
    (length (order_by_ids (fetch_movies (db s') top) top) <= n)%nat /\
    forall m, In m (order_by_ids (fetch_movies (db s') top) top) ->
      In m (movies (db s')) /\ ~ In (movie_id m) seen).
  { intros s' j uf pr seen scores top. split.
    - etransitivity; [apply order_by_ids_length|]. apply map_fst_firstn_length.
    - intros m Hm. apply order_by_ids_In in Hm as [Hf Hid].
      apply fetch_movies_In in Hf as [Hf _]. split; [done|].
      apply map_fst_firstn_sort_In in Hid as (q & Hq). by eapply svd_scores_keys. }
  cbv zeta in Hmodel. unfold get_svd_recommendations, st_bind, st_read.
  destruct (_svd_model s) as [fit|] eqn:Em.
  - simpl. destruct (index_of uid (default [] (_svd_user_ids s))) as [j|] eqn:Ei.
    + destruct (Hmodel s j) as [H1 H2]. split; [done|]. split.
      * intros m Hm. destruct (H2 m Hm) as [H3 H4]. split; [done|].
        intros Hin. apply H4, in_or_app. by right.
      * intros _ _ m Hm Hin. apply (H2 m Hm), in_or_app. by left.
    + simpl. split; [apply Hitem|]. split; [apply Hitem|].
      intros _ Hin. exfalso. by apply (index_of_from_present uid _ 0 Hin).
  - pose proof (build_svd_model_db ts s) as Hdb.
    destruct (_build_svd_model ts s) as [[|] s2]; simpl in Hdb |- *.
    + destruct (index_of uid (default [] (_svd_user_ids s2))) as [j|]; rewrite <- Hdb.
      * destruct (Hmodel s2 j) as [H1 H2]. split; [done|]. split; [|done].
        intros m Hm. destruct (H2 m Hm) as [H3 H4]. split; [done|].
        intros Hin. apply H4, in_or_app. by right.
      * split; [apply Hitem|]. split; [apply Hitem|done].
    + rewrite <- Hdb. split; [apply Hitem|]. split; [apply Hitem|done].
Qed.

(** ** Building, rebuilding and listing the latent-factor model *)

Lemma dedup_first_z_fold (l acc : list Z) :
  NoDup acc ->
  NoDup (fold_left (fun acc x => if z_in x acc then acc else x :: acc) l acc) /\
  (forall y, In y (fold_left (fun acc x => if z_in x acc then acc else x :: acc) l acc) <->
             In y acc \/ In y l).
Proof.
  revert acc; induction l as [|x l IH]; intros acc H; simpl; [split; [done|tauto]|].
  destruct (z_in x acc) eqn:E.
  - destruct (IH acc H) as [H1 H2]. split; [done|]. intros y. rewrite H2.
    apply z_in_true in E. split; [tauto|]. intros [Hy|[<-|Hy]]; tauto.
  - destruct (IH (x :: acc)) as [H1 H2].
    { constructor; [|done]. rewrite list_elem_of_In. by apply z_in_false. }
    split; [done|]. intros y. rewrite H2. simpl. tauto.
Qed.

Lemma dedup_first_z_spec (l : list Z) :
  NoDup (dedup_first_z l) /\ (forall y, In y (dedup_first_z l) <-> In y l).
Proof.
  unfold dedup_first_z. destruct (dedup_first_z_fold l [] (NoDup_nil_2)) as [H1 H2].
  split.
  - by rewrite <- Permutation_rev.
  - intros y. rewrite <- in_rev, H2. simpl. tauto.
Qed.

Lemma frame_columns_spec (rows : list Z) (cells : list (Z * Z)) :
  NoDup (frame_columns rows cells) /\
  (forall k, In k (frame_columns rows cells) <-> exists u, In u rows /\ In (u, k) cells).
Proof.
  unfold frame_columns.
  destruct (dedup_first_z_spec (flat_map (fun u => map snd (List.filter (fun p => p.1 =? u) cells)) rows))
    as [H1 H2].
  split; [done|]. intros k. rewrite H2, in_flat_map. split.
  - intros (u & Hu & Hk). apply in_map_iff in Hk as ([u' k'] & <- & Hp).
    apply filter_In in Hp as [Hp Heq]. apply Z.eqb_eq in Heq. simpl in *. subst u'.
    by exists u.
  - intros (u & Hu & Hp). exists u. split; [done|]. apply in_map_iff. exists (u, k).
    split; [done|]. apply filter_In. split; [done|]. apply Z.eqb_refl.
Qed.

Lemma index_of_from_Some (x : Z) (l : list Z) (i j : nat) :
  index_of_from x l i = Some j -> In x l.
Proof.
  revert i; induction l as [|y t IH]; intros i H; simpl in *; [done|].
  destruct (Z.eqb_spec x y); [by left|]. right. by apply (IH (S i)).
Qed.

(** X11: A successful [_build_svd_model()] leaves the database alone and caches
    a model of rank between 2 and [svd_components] (20), below the number
    of rated users and of rated movies, with its user and movie index: the
    distinct raters and the distinct rated movies, each listed once; it
    needs at least [svd_min_ratings] (10) ratings. *)
Theorem build_svd_model_success ts (s : Store) (Hok : fst (_build_svd_model ts s) = true) :
  let s' := snd (_build_svd_model ts s) in
  let uids := dedup_first_z (map r_user_id (ratings (db s))) in
  let mids := frame_columns uids (map (fun r => (r_user_id r, r_movie_id r)) (ratings (db s))) in
  db s' = db s /\ (svd_min_ratings <= length (ratings (db s)))%nat /\
  _svd_user_ids s' = Some uids /\ _svd_movie_ids s' = Some mids /\
  NoDup uids /\ NoDup mids /\
  (forall u, In u uids <-> exists r, In r (ratings (db s)) /\ r_user_id r = u) /\
  (forall k, In k mids <-> exists r, In r (ratings (db s)) /\ r_movie_id r = k) /\
  exists fit, _svd_model s' = Some fit /\
    2 <= fit_n_components fit <= svd_components /\
    fit_n_components fit < Z.of_nat (length uids) /\
    fit_n_components fit < Z.of_nat (length mids).
Proof.
  intros s' uids mids. subst s'.
  destruct (dedup_first_z_spec (map r_user_id (ratings (db s)))) as [Hu1 Hu2].
  fold uids in Hu1, Hu2.
  destruct (frame_columns_spec uids (map (fun r => (r_user_id r, r_movie_id r)) (ratings (db s))))
    as [Hm1 Hm2].
  fold mids in Hm1, Hm2.
  assert (Hin : forall {B} (f : Rating -> B) x,
            In x (map f (ratings (db s))) <-> exists r, In r (ratings (db s)) /\ f r = x).
  { intros B f x. rewrite in_map_iff. split; intros (r & ? & ?); by exists r. }
  revert Hok. unfold _build_svd_model. fold uids mids.
  destruct (Nat.ltb_spec (length (ratings (db s))) svd_min_ratings); [done|].
  destruct (Nat.ltb_spec (length uids) 2); [done|].
  destruct (Z.ltb_spec (Z.min svd_components (Z.min (Z.of_nat (length uids))
                                               (Z.of_nat (length mids)) - 1)) 2); [done|].
  destruct (ts _ _) as [[uf itf]|]; [|done]. intros _. simpl.
  split; [done|]. split; [done|]. split; [done|]. split; [done|].
  split; [done|]. split; [done|].
  split; [intros u; rewrite Hu2; apply Hin|].
  split.
  { intros k. rewrite Hm2. split.
    - intros (u & _ & Hp). apply in_map_iff in Hp as (r & Hr & Hp). injection Hr as <- <-.
      by exists r.
    - intros (r & Hr & <-). exists (r_user_id r). split.
      + apply Hu2, in_map, Hr.
      + by apply (in_map (fun r => (r_user_id r, r_movie_id r))). }
  eexists. split; [reflexivity|]. simpl. unfold svd_components in *. lia.
Qed.

(** [force_model_update]: rebuild from the emptied cache, then the commit
    of the log row decides the result. *)
Lemma force_model_update_cases ts (s : Store) (ut : string) (now : Z) :
  let B := _build_svd_model ts (snd (invalidate_svd_cache s)) in
  let total := length (ratings (db s)) in
  let mets := update_metrics (fst B) (snd B) in
  force_model_update ts ut now s =
  match stored_log_row (ratings (db s))
          (mkModelUpdateLog "svd" ut total "manual_force_update" mets (fst B) now) with
  | Some row =>
      (mkForceUpdateResult true ut mets (Some total) false,
       set_logs (model_update_logs (db s) ++ [row]) (snd B))
  | None => (mkForceUpdateResult false ut None None true, snd B)
  end.
Proof.
  intros B total mets. subst B total mets. unfold force_model_update.
  cbn [invalidate_svd_cache snd].
  pose proof (build_svd_model_db ts (mkStore (db s) None None None None None
                                       (incremental_update_threshold s))) as Hdb.
  destruct (_build_svd_model ts _) as [ok s2]. simpl in Hdb |- *. by rewrite Hdb.
Qed.

(** X12: [force_model_update(update_type)] rebuilds the model from an
    emptied cache and reports the given update type; the metrics are empty
    exactly when the rebuild failed.  The log entry [svd]/[update_type]
    with trigger ["manual_force_update"], the total number of ratings and
    the build's success is appended, and [updated = True] reported, when
    PostgreSQL accepts the row: [update_type] fits [VARCHAR(50)] (an
    overlong value is only accepted when its excess is spaces, and is then
    cut), the count fits [INTEGER], and a successful build has a finite
    explained variance ratio.  Otherwise nothing is written and the result
    is [updated = False] with an error and empty metrics; the rebuilt model
    stays cached. *)
Theorem force_model_update_spec ts (s : Store) (ut : string) (now : Z) :
  let B := _build_svd_model ts (snd (invalidate_svd_cache s)) in
  let total := length (ratings (db s)) in
  let mets := update_metrics (fst B) (snd B) in
  let p := force_model_update ts ut now s in
  fu_update_type p.1 = ut /\
  (mets = None <-> fst B = false) /\
  (forall ut', varchar_value 50 ut = Some ut' -> Z.of_nat total <= pg_integer_max ->
   (fst B = true -> explained_variance_ratio_finite (ratings (db s)) = true) ->
   p = (mkForceUpdateResult true ut mets (Some total) false,
        set_logs (model_update_logs (db s) ++
                  [mkModelUpdateLog "svd" ut' total "manual_force_update" mets (fst B) now])
                 (snd B))) /\
  (varchar_value 50 ut = None \/ pg_integer_max < Z.of_nat total \/
   (fst B = true /\ explained_variance_ratio_finite (ratings (db s)) = false) ->
   p = (mkForceUpdateResult false ut None None true, snd B)).
Proof.
  intros B total mets p. subst p.
  rewrite (force_model_update_cases ts s ut now). fold B total mets.
  rewrite stored_log_row_svd.
  assert (Hv : varchar_value 100 "manual_force_update" = Some "manual_force_update")
    by reflexivity.
  rewrite Hv.
  pose proof (metrics_json_ok_update ts (snd (invalidate_svd_cache s)) (ratings (db s))) as HJ.
  fold B mets in HJ. rewrite HJ.
  split; [destruct (varchar_value 50 ut); [destruct (_ && _)|]; done|].
  split; [apply update_metrics_none|]. split.
  - intros ut' Hut Htot Hfin. rewrite Hut.
    rewrite (proj2 (Z.leb_le _ _) Htot). simpl.
    destruct (fst B); simpl; [by rewrite Hfin|done].
  - intros [Hut|[Htot|[Hb Hfin]]].
    + by rewrite Hut.
    + destruct (varchar_value 50 ut); [|done].
      by rewrite (proj2 (Z.leb_gt _ _) Htot).
    + destruct (varchar_value 50 ut); [|done].
      rewrite Hb, Hfin. simpl. by rewrite andb_false_r.
Qed.

Lemma Zltb_asym (a b : Z) : (a <? b) = true -> (b <? a) = false.
Proof. intros H. apply Z.ltb_lt in H. apply Z.ltb_ge. lia. Qed.

Lemma sort_desc_Z_sorted {A} (key : A -> Z) (l : list A) :
  Sorted (fun x y => key y <= key x) (sort_desc key Z.ltb l).
Proof.
  eapply sorted_impl; [|apply (sort_desc_sorted key Z.ltb Zltb_asym)].
  intros x y. unfold desc_ok. intros H. by apply Z.ltb_ge in H.
Qed.

(** X13: [get_model_update_history(limit)] lists at most [limit] entries of the
    Model Update Log, newest first (non-increasing [created_at]); with a
    limit at least the size of the log it lists every entry exactly once. *)
Theorem model_update_history_spec (d : Database) (limit : nat) :
  let h := get_model_update_history d limit in
  (length h <= limit)%nat /\
  (forall l, In l h -> In l (model_update_logs d)) /\
  Sorted (fun a b => log_created_at b <= log_created_at a) h /\
  ((length (model_update_logs d) <= limit)%nat -> h ≡ₚ model_update_logs d).
Proof.
  intros h. subst h. unfold get_model_update_history. split; [|split; [|split]].
  - rewrite length_firstn. lia.
  - intros l Hl. by apply firstn_in, sort_desc_In in Hl.
  - apply sorted_firstn, sort_desc_Z_sorted.
  - intros Hle. rewrite firstn_all2; [apply sort_desc_perm|].
    by rewrite (Permutation_length (sort_desc_perm log_created_at Z.ltb _)).
Qed.

Lemma sort_desc_snoc_top {A} (key : A -> Z) (l : list A) (x : A) :
  (forall y, In y l -> key y < key x) ->
  sort_desc key Z.ltb (l ++ [x]) = x :: sort_desc key Z.ltb l.
Proof.
  intros H. unfold sort_desc. rewrite fold_left_app. simpl. fold (sort_desc key Z.ltb l).
  destruct (sort_desc key Z.ltb l) as [|y t] eqn:E; simpl; [done|].
  assert (Hy : In y l) by (apply (sort_desc_In key Z.ltb); rewrite E; by left).
  apply H, Z.ltb_lt in Hy. by rewrite Hy.
Qed.

(** X14: A forced update made later than every logged update heads the
    update history when it reports [updated = True]: its row, with the
    [update_type] as the column stores it, is the first entry.  When it
    reports [updated = False] the history is unchanged. *)
Theorem force_update_heads_history ts (s : Store) (ut : string) (now : Z) (limit : nat)
    (Hlater : forall l, In l (model_update_logs (db s)) -> log_created_at l < now)
    (Hlimit : (1 <= limit)%nat) :
  let p := force_model_update ts ut now s in
  (fu_updated p.1 = true ->
   exists ut', varchar_value 50 ut = Some ut' /\
   head (get_model_update_history (db p.2) limit) =
     Some (mkModelUpdateLog "svd" ut' (length (ratings (db s))) "manual_force_update"
             (fu_metrics p.1) (fst (_build_svd_model ts (snd (invalidate_svd_cache s)))) now)) /\
  (fu_updated p.1 = false ->
   get_model_update_history (db p.2) limit = get_model_update_history (db s) limit).
Proof.
  intros p. subst p. rewrite (force_model_update_cases ts s ut now).
  pose proof (build_svd_model_db ts (snd (invalidate_svd_cache s))) as Hdb.
  rewrite stored_log_row_svd.
  assert (Hv : varchar_value 100 "manual_force_update" = Some "manual_force_update")
    by reflexivity.
  rewrite Hv.
  destruct (_build_svd_model ts (snd (invalidate_svd_cache s))) as [ok s2].
  cbn [fst snd invalidate_svd_cache db] in Hdb |- *.
  destruct (varchar_value 50 ut) as [ut'|] eqn:Hut.
  - destruct (_ && _).
    + split; [|done]. intros _. exists ut'. split; [done|].
      unfold get_model_update_history. simpl.
      rewrite sort_desc_snoc_top by done.
      destruct limit as [|k]; [lia|]. done.
    + split; [done|]. intros _. simpl. by rewrite Hdb.
  - split; [done|]. intros _. simpl. by rewrite Hdb.
Qed.

(** ** Tracking interactions with recommended movies *)

Lemma in_imap_pair {A} (l : list A) (i : nat) (x : A) :
  In (i, x) (imap pair l) <-> l !! i = Some x.
Proof.
  rewrite <- list_elem_of_In, list_elem_of_lookup. split.
  - intros (j & Hj). rewrite list_lookup_imap in Hj.
    destruct (l !! j) as [y|] eqn:E; simpl in Hj; [|done]. injection Hj as -> ->. done.
  - intros H. exists i. rewrite list_lookup_imap, H. done.
Qed.

Lemma most_recent_event_spec (p : RecommendationEvent -> bool) (evs : list RecommendationEvent) :
  match most_recent_event p evs with
  | Some (i, e) =>
      evs !! i = Some e /\ p e = true /\
      forall j e', evs !! j = Some e' -> p e' = true -> ev_created_at e' <= ev_created_at e
  | None => forall j e', evs !! j = Some e' -> p e' = false
  end.
Proof.
  unfold most_recent_event.
  pose proof (sort_desc_Z_sorted (fun ie : nat * RecommendationEvent => ev_created_at ie.2)
                (List.filter (fun ie => p ie.2) (imap pair evs))) as Hs.
  pose proof (sort_desc_In (fun ie : nat * RecommendationEvent => ev_created_at ie.2) Z.ltb
                (List.filter (fun ie => p ie.2) (imap pair evs))) as Hin.
  destruct (sort_desc _ Z.ltb _) as [|[i e] t] eqn:E; simpl.
  - intros j e' Hj. destruct (p e') eqn:Hp; [|done]. exfalso.
    apply (Hin (j, e')), filter_In. split; [by apply in_imap_pair|done].
  - assert (He : In (i, e) (List.filter (fun ie => p ie.2) (imap pair evs)))
      by (apply Hin; by left).
    apply filter_In in He as [He Hpe]. apply in_imap_pair in He.
    split; [done|]. split; [done|]. intros j e' Hj Hp.
    assert (Hj' : In (j, e') ((i, e) :: t))
      by (apply Hin, filter_In; split; [by apply in_imap_pair|done]).
    apply Sorted_StronglySorted in Hs; [|intros a b c; simpl; lia].
    apply StronglySorted_inv in Hs as [_ Hall]. destruct Hj' as [Heq|Ht].
    + injection Heq as -> ->. lia.
    + rewrite Forall_forall in Hall. apply (Hall (j, e')). by apply list_elem_of_In.
Qed.

(** X17: Click tracking: when the user has a not yet clicked recommendation
    event for the movie, exactly the most recent such event (by
    [created_at]) is marked clicked at [now] and every other row is kept;
    when there is none, the table is unchanged. *)
Theorem track_click_marks_most_recent_unclicked (evs : list RecommendationEvent) (uid mid now : Z) :
  (track_recommendation_click evs uid mid now = evs /\
   forall j e, evs !! j = Some e -> ev_user_id e = uid -> ev_movie_id e = mid -> clicked e = true)
  \/
  (exists i e, evs !! i = Some e /\ ev_user_id e = uid /\ ev_movie_id e = mid /\ clicked e = false /\
     (forall j e', evs !! j = Some e' -> ev_user_id e' = uid -> ev_movie_id e' = mid ->
        clicked e' = false -> ev_created_at e' <= ev_created_at e) /\
     track_recommendation_click evs uid mid now = <[i := mark_clicked now e]> evs).
Proof.
  unfold track_recommendation_click.
  pose proof (most_recent_event_spec (fun e => event_of_pair uid mid e && negb (clicked e)) evs) as H.
  destruct (most_recent_event _ evs) as [[i e]|].
  - destruct H as (Hi & Hp & Hmax). unfold event_of_pair in Hp.
    apply andb_prop in Hp as [Hp Hc]. apply andb_prop in Hp as [Hu Hm].
    apply Z.eqb_eq in Hu, Hm. apply negb_true_iff in Hc.
    right. exists i, e. repeat split; try done.
    intros j e' Hj Hu' Hm' Hc'. apply (Hmax j e' Hj). unfold event_of_pair.
    rewrite Hu', Hm', Hc', !Z.eqb_refl. done.
  - left. split; [done|]. intros j e Hj Hu Hm. specialize (H j e Hj).
    unfold event_of_pair in H. rewrite Hu, Hm, !Z.eqb_refl in H. simpl in H.
    destruct (clicked e); done.
Qed.

(** X18: Rating tracking: when the user has a not yet rated recommendation
    event for the movie, exactly the most recent such event is marked
    rated at [now] with the given rating value and every other row is kept;
    when there is none, the table is unchanged. *)
Theorem track_rating_marks_most_recent_unrated (evs : list RecommendationEvent) (uid mid : Z)
    (rating : Q) (now : Z) :
  (track_recommendation_rating evs uid mid rating now = evs /\
   forall j e, evs !! j = Some e -> ev_user_id e = uid -> ev_movie_id e = mid -> rated e = true)
  \/
  (exists i e, evs !! i = Some e /\ ev_user_id e = uid /\ ev_movie_id e = mid /\ rated e = false /\
     (forall j e', evs !! j = Some e' -> ev_user_id e' = uid -> ev_movie_id e' = mid ->
        rated e' = false -> ev_created_at e' <= ev_created_at e) /\
     track_recommendation_rating evs uid mid rating now = <[i := mark_rated now (Some rating) e]> evs).
Proof.
  unfold track_recommendation_rating.
  pose proof (most_recent_event_spec (fun e => event_of_pair uid mid e && negb (rated e)) evs) as H.
  destruct (most_recent_event _ evs) as [[i e]|].
  - destruct H as (Hi & Hp & Hmax). unfold event_of_pair in Hp.
    apply andb_prop in Hp as [Hp Hc]. apply andb_prop in Hp as [Hu Hm].
    apply Z.eqb_eq in Hu, Hm. apply negb_true_iff in Hc.
    right. exists i, e. repeat split; try done.
    intros j e' Hj Hu' Hm' Hc'. apply (Hmax j e' Hj). unfold event_of_pair.
    rewrite Hu', Hm', Hc', !Z.eqb_refl. done.
  - left. split; [done|]. intros j e Hj Hu Hm. specialize (H j e Hj).
    unfold event_of_pair in H. rewrite Hu, Hm, !Z.eqb_refl in H. simpl in H.
    destruct (rated e); done.
Qed.

(** X19: Generic interaction tracking never adds or removes an event: an action
    other than click, rate, favorite and watchlist leaves the table
    unchanged, and otherwise only the most recent event of the user and
    movie can change, keeping its id, user, movie, algorithm, score,
    position and creation time. *)
Theorem track_performance_changes_only_latest_event (evs : list RecommendationEvent) (uid mid : Z)
    (action : string) (value : option Q) (now : Z) :
  let r := track_recommendation_performance evs uid mid action value now in
  length r = length evs /\
  (~ In action ["click"; "rate"; "favorite"; "watchlist"] -> r = evs) /\
  (r = evs \/
   exists i e e', evs !! i = Some e /\ r !! i = Some e' /\
     ev_user_id e = uid /\ ev_movie_id e = mid /\
     (forall j e2, evs !! j = Some e2 -> ev_user_id e2 = uid -> ev_movie_id e2 = mid ->
        ev_created_at e2 <= ev_created_at e) /\
     (forall j, j <> i -> r !! j = evs !! j) /\
     ev_id e' = ev_id e /\ ev_user_id e' = uid /\ ev_movie_id e' = mid /\
     algorithm e' = algorithm e /\ recommendation_score e' = recommendation_score e /\
     position e' = position e /\ ev_created_at e' = ev_created_at e).
Proof.
  intros r. subst r. unfold track_recommendation_performance.
  pose proof (most_recent_event_spec (event_of_pair uid mid) evs) as H.
  destruct (most_recent_event _ evs) as [[i e]|]; [|split; [done|split; [done|by left]]].
  destruct H as (Hi & Hp & Hmax). unfold event_of_pair in Hp.
  apply andb_prop in Hp as [Hu Hm]. apply Z.eqb_eq in Hu, Hm.
  split; [apply length_insert|]. split.
  - intros Hn. rewrite list_insert_id; [done|].
    destruct (String.eqb_spec action "click") as [->|]; [exfalso; apply Hn; simpl; tauto|].
    destruct (String.eqb_spec action "rate") as [->|]; [exfalso; apply Hn; simpl; tauto|].
    destruct (String.eqb_spec action "favorite") as [->|]; [exfalso; apply Hn; simpl; tauto|].
    destruct (String.eqb_spec action "watchlist") as [->|]; [exfalso; apply Hn; simpl; tauto|].
    done.
  - right. set (e' := if String.eqb action "click" then mark_clicked now e
                else if String.eqb action "rate" then mark_rated now value e
                else if String.eqb action "favorite" then mark_favorite e
                else if String.eqb action "watchlist" then mark_watchlist e
                else e).
    exists i, e, e'. split; [done|]. split.
    { apply list_lookup_insert_eq. by eapply lookup_lt_Some. }
    split; [done|]. split; [done|]. split.
    { intros j e2 Hj Hu2 Hm2. apply (Hmax j e2 Hj). unfold event_of_pair.
      rewrite Hu2, Hm2, !Z.eqb_refl. done. }
    split; [intros j Hj; by apply list_lookup_insert_ne|].
    subst e'. rewrite <- Hu, <- Hm.
    destruct (String.eqb action "click"); [done|].
    destruct (String.eqb action "rate"); [done|].
    destruct (String.eqb action "favorite"); [done|].
    destruct (String.eqb action "watchlist"); done.
Qed.

(** X20: A recommendation that was just tracked, later than every earlier event
    of the same user and movie, is the one a following click marks: the
    table becomes the old events followed by the new event, clicked. *)
Theorem tracked_then_clicked (d : Database) (evs : list RecommendationEvent) (uid mid : Z)
    (algo : string) (pos : Z) (score : option Q) (next_id now t : Z)
    (Hok : fst (track_recommendation d evs uid mid algo pos score next_id now) = Some next_id)
    (Hlater : forall e, In e evs -> ev_user_id e = uid -> ev_movie_id e = mid ->
                ev_created_at e < now) :
  track_recommendation_click (snd (track_recommendation d evs uid mid algo pos score next_id now))
    uid mid t =
  evs ++ [mark_clicked t (mkRecommendationEvent next_id uid mid algo score (Some pos)
                            false None false None None false false now)].
Proof.
  unfold track_recommendation in *.
  destruct (_ && _); [|discriminate]. simpl. clear Hok.
  set (ev := mkRecommendationEvent next_id uid mid algo score (Some pos)
               false None false None None false false now).
  unfold track_recommendation_click.
  pose proof (most_recent_event_spec (fun e => event_of_pair uid mid e && negb (clicked e))
                (evs ++ [ev])) as H.
  assert (Hev : (evs ++ [ev]) !! length evs = Some ev) by (apply list_lookup_middle; done).
  assert (Hpev : event_of_pair uid mid ev && negb (clicked ev) = true)
    by (unfold event_of_pair; simpl; rewrite !Z.eqb_refl; done).
  destruct (most_recent_event _ _) as [[i e]|].
  - destruct H as (Hi & Hp & Hmax). specialize (Hmax _ _ Hev Hpev).
    apply lookup_snoc_Some in Hi as [[Hlt Hi]|[-> <-]].
    + exfalso. unfold event_of_pair in Hp.
      apply andb_prop in Hp as [Hp _]. apply andb_prop in Hp as [Hu Hm].
      apply Z.eqb_eq in Hu, Hm.
      assert (In e evs) by (apply list_elem_of_In, list_elem_of_lookup; eauto).
      specialize (Hlater e ltac:(done) Hu Hm). simpl in Hmax. lia.
    + rewrite (insert_app_r_alt evs [ev]) by lia. rewrite Nat.sub_diag. done.
  - specialize (H _ _ Hev). congruence.
Qed.

(** X21: [get_algorithm_performance] reports no algorithm at all, whatever the
    events and the window: the query names [Integer], which
    [recommender.py] never imports, so building it raises [NameError] and
    the handler returns the empty result. *)
Theorem algorithm_performance_always_empty (evs : list RecommendationEvent) (days now : Z) :
  get_algorithm_performance evs days now = [].
Proof. reflexivity. Qed.

(** ** Context extraction *)

Lemma fold_left_invariant {A B} (P : B -> Prop) (f : B -> A -> B) (l : list A) (b : B) :
  P b -> (forall b a, P b -> P (f b a)) -> P (fold_left f l b).
Proof. revert b; induction l as [|a t IH]; intros b Hb Hf; simpl; [done|]. apply IH; auto. Qed.

Lemma count_genre_keys (g : string) (l : list (string * nat)) :
  map fst (count_genre g l) = if s_in g (map fst l) then map fst l else map fst l ++ [g].
Proof.
  induction l as [|[g' c] t IH]; simpl; [done|].
  unfold s_in in *. simpl. destruct (String.eqb g g'); simpl; [done|].
  rewrite IH. destruct (existsb _ _); done.
Qed.

Lemma count_genre_pos (g : string) (l : list (string * nat)) :
  Forall (fun p => (1 <= p.2)%nat) l -> Forall (fun p => (1 <= p.2)%nat) (count_genre g l).
Proof.
  induction l as [|[g' c] t IH]; intros H; simpl; [repeat constructor|].
  inversion H as [|? ? Hc Ht]; subst. simpl in Hc.
  destruct (String.eqb g g'); constructor; simpl; auto with lia.
Qed.

Definition genre_acc_ok (acc : list string * list (string * nat)) : Prop :=
  map fst acc.2 = acc.1 /\ NoDup acc.1 /\ Forall (fun p => (1 <= p.2)%nat) acc.2.

Lemma add_recent_genre_ok (acc : list string * list (string * nat)) (g : string) :
  genre_acc_ok acc -> genre_acc_ok (add_recent_genre acc g).
Proof.
  destruct acc as [rg gc]. intros (Hk & Hnd & Hpos). unfold add_recent_genre, genre_acc_ok; simpl in *.
  split; [|split; [|by apply count_genre_pos]].
  - rewrite count_genre_keys, Hk. done.
  - destruct (s_in g rg) eqn:E; [done|]. apply NoDup_app. split; [done|]. split; [|apply NoDup_singleton].
    intros x Hx Hx'. apply list_elem_of_singleton in Hx'. subst x.
    apply list_elem_of_In in Hx. unfold s_in in E.
    assert (existsb (fun y => String.eqb g y) rg = true) by (apply existsb_exists; exists g; split; [done|apply String.eqb_refl]).
    congruence.
Qed.

(** X16: The context read from the database: the recent genres are distinct and
    are exactly the keys of the genre saturation, whose values are positive;
    the sequential pattern is at most five of the user's own ratings, newest
    first, and all of them when the user has at most five. *)
Theorem contextual_features_spec (d : Database) (uid now_hour now_weekday : Z) :
  let ctx := _get_contextual_features d uid now_hour now_weekday in
  NoDup (recent_genres ctx) /\
  map fst (genre_saturation ctx) = recent_genres ctx /\
  (forall g q, In (g, q) (genre_saturation ctx) -> (0 < q)%Q) /\
  (length (sequential_patterns ctx) <= 5)%nat /\
  (forall r, In r (sequential_patterns ctx) -> In r (ratings d) /\ r_user_id r = uid) /\
  Sorted (fun a b => r_timestamp b <= r_timestamp a) (sequential_patterns ctx) /\
  ((length (user_ratings_of d uid) <= 5)%nat -> sequential_patterns ctx ≡ₚ user_ratings_of d uid).
Proof.
  intros ctx.
  set (sorted := sort_desc r_timestamp Z.ltb (user_ratings_of d uid)).
  assert (Hseq : sequential_patterns ctx = firstn 5 sorted /\
                 NoDup (recent_genres ctx) /\
                 map fst (genre_saturation ctx) = recent_genres ctx /\
                 (forall g q, In (g, q) (genre_saturation ctx) -> (0 < q)%Q)).
  { subst ctx. unfold _get_contextual_features. cbv zeta. fold sorted.
    destruct (firstn 10 sorted) as [|r0 rs] eqn:E.
    - simpl. destruct sorted; [|discriminate]. simpl.
      split; [done|]. split; [constructor|done].
    - match goal with |- context [fetch_movies d ?x] => generalize (fetch_movies d x); intros ms end.
      match goal with |- context [fold_left ?f ms ([], [])] =>
        assert (Hok : genre_acc_ok (fold_left f ms ([], [])));
        [|destruct (fold_left f ms ([], [])) as [rg gc] eqn:Hf]
      end.
      { apply fold_left_invariant; [split; [done|split; constructor]|].
        intros acc m Hacc. simpl.
        destruct (genres_truthy _); [|done]. destruct (decode_genres _); [|done].
        apply fold_left_invariant; [done|]. intros ? ?; apply add_recent_genre_ok. }
      rewrite <- E. simpl.
      split; [rewrite firstn_firstn; done|].
      destruct Hok as (Hk & Hnd & Hpos). simpl in Hk, Hnd, Hpos.
      split; [done|].
      destruct (0 <? length ms)%nat eqn:Hl.
      + apply Nat.ltb_lt in Hl. split.
        * rewrite map_map. simpl. done.
        * intros g q Hin. apply in_map_iff in Hin as ([g' c] & Heq & Hin).
          injection Heq as <- <-. rewrite Forall_forall in Hpos.
          assert (Hc := Hpos (g', c) ltac:(by apply list_elem_of_In)). simpl in Hc.
          apply Qlt_shift_div_l.
          { change 0%Q with (inject_Z 0). rewrite <- Zlt_Qlt. lia. }
          rewrite Qmult_0_l. change 0%Q with (inject_Z 0). rewrite <- Zlt_Qlt. lia.
      + apply Nat.ltb_ge in Hl. destruct ms; [|simpl in Hl; lia].
        simpl in Hf. injection Hf as <- <-. simpl. split; [done|]. intros ? ? [].
  }
  destruct Hseq as (Hseq & Hnd & Hk & Hq).
  split; [done|]. split; [done|]. split; [done|]. rewrite Hseq.
  split; [rewrite length_firstn; lia|]. split.
  { intros r Hr. apply firstn_in, sort_desc_In in Hr. unfold user_ratings_of in Hr.
    apply filter_In in Hr as [Hr Hu]. apply Z.eqb_eq in Hu. done. }
  split; [apply sorted_firstn, sort_desc_Z_sorted|].
  intros Hlen. rewrite firstn_all2; [apply sort_desc_perm|].
  unfold sorted. rewrite (Permutation_length (sort_desc_perm r_timestamp Z.ltb _)). lia.
Qed.

(** ** The SVD cache *)

Lemma build_svd_model_from_empty (ts : Z -> list (list Q) -> option (list (list Q) * list (list Q)))
    (s : Store) :
  _svd_model s = None ->
  db (snd (_build_svd_model ts s)) = db s /\
  (fst (_build_svd_model ts s) = true -> _svd_model (snd (_build_svd_model ts s)) <> None) /\
  (fst (_build_svd_model ts s) = false ->
     _svd_model (snd (_build_svd_model ts s)) = None /\
     _build_svd_model ts (snd (_build_svd_model ts s)) = _build_svd_model ts s).
Proof.
  intros Hm. unfold _build_svd_model.
  destruct (length (ratings (db s)) <? svd_min_ratings)%nat eqn:E1;
    [simpl; rewrite E1; repeat split; done|].
  destruct (length (dedup_first_z (map r_user_id (ratings (db s)))) <? 2)%nat eqn:E2;
    [simpl; rewrite E1, E2; repeat split; done|].
  match goal with |- context [if ?c <? 2 then _ else _] => destruct (c <? 2) eqn:E3 end.
  - simpl. rewrite Hm, E1, E2, E3. repeat split; done.
  - match goal with |- context [match ts ?k ?mat with _ => _ end] => destruct (ts k mat) as [[uf itf]|] eqn:E4 end.
    + simpl. repeat split; done.
    + simpl. rewrite Hm, E1, E2, E3, E4. repeat split; done.
Qed.

(** X10: The SVD recommender only fills the model cache: it never changes the
    database, and calling it a second time right after returns the same
    movies and leaves the same state as the first call. *)
Theorem svd_recommendations_cache_stable
    (cos : list (list Q) -> list (list Q))
    (ts : Z -> list (list Q) -> option (list (list Q) * list (list Q)))
    (s : Store) (uid : Z) (n : nat) :
  let p := get_svd_recommendations cos ts uid n s in
  db p.2 = db s /\ get_svd_recommendations cos ts uid n p.2 = p.
Proof.
  intros p. subst p. unfold get_svd_recommendations, st_bind.
  destruct (_svd_model s) as [fit|] eqn:Hm.
  - cbn. destruct (index_of uid _) eqn:Ei; cbn; rewrite Hm; cbn; rewrite Ei; split; done.
  - pose proof (build_svd_model_from_empty ts s Hm) as (Hdb & Htrue & Hfalse).
    destruct (_build_svd_model ts s) as [ok s1] eqn:Hb. simpl in *.
    destruct ok.
    + specialize (Htrue eq_refl). destruct (_svd_model s1) as [fit|] eqn:Hm1; [|done].
      cbn. destruct (index_of uid _) eqn:Ei; cbn; rewrite Hm1; cbn; rewrite Ei; split; done.
    + destruct (Hfalse eq_refl) as [Hm1 Hb1]. simpl. split; [done|].
      rewrite Hm1, Hb1. simpl. unfold st_read. rewrite Hdb. done.
Qed.

(** ** User-based collaborative filtering *)

Lemma user_based_inner_keys (L E : list Z) (sim : Q) (xs acc : list (Z * Q)) :
  Forall (fun k => z_in k L = false /\ z_in k E = false) (map fst acc) ->
  Forall (fun k => z_in k L = false /\ z_in k E = false)
    (map fst (fold_left (fun acc q =>
       let '(movie_id, rating) := q in
       if negb (z_in movie_id L) && negb (z_in movie_id E)
       then add_score_z movie_id (rating * sim)%Q acc else acc) xs acc)).
Proof.
  revert acc; induction xs as [|[k r] xs IH]; intros acc H; simpl; [done|].
  apply IH. destruct (negb (z_in k L)) eqn:E1, (negb (z_in k E)) eqn:E2; simpl; try done.
  apply add_score_z_keys; [done|]. split; by apply negb_true_iff.
Qed.

Lemma user_based_outer_keys (L E : list Z) (f : Z -> list (Z * Q)) (ps acc : list (Z * Q)) :
  Forall (fun k => z_in k L = false /\ z_in k E = false) (map fst acc) ->
  Forall (fun k => z_in k L = false /\ z_in k E = false)
    (map fst (fold_left (fun acc p =>
       let '(sim_user_id, similarity) := p in
       if Qle_bool similarity 0 then acc
       else fold_left (fun acc q =>
              let '(movie_id, rating) := q in
              if negb (z_in movie_id L) && negb (z_in movie_id E)
              then add_score_z movie_id (rating * similarity)%Q acc else acc)
            (f sim_user_id) acc) ps acc)).
Proof.
  revert acc; induction ps as [|[u sim] ps IH]; intros acc H; simpl; [done|].
  apply IH. destruct (Qle_bool sim 0); [done|]. by apply user_based_inner_keys.
Qed.

Lemma fold_rating_value (rs : list Rating) (u k : Z) (o : option Q) (q : Q) :
  fold_left (fun o r => if (r_user_id r =? u) && (r_movie_id r =? k) then Some (r_rating r) else o)
            rs o = Some q ->
  o = Some q \/ exists r, In r rs /\ r_user_id r = u /\ r_movie_id r = k /\ r_rating r = q.
Proof.
  revert o; induction rs as [|r rs IH]; intros o H; simpl in H; [by left|].
  apply IH in H as [H|(r' & Hr' & H)]; [|right; exists r'; simpl; tauto].
  destruct ((r_user_id r =? u) && (r_movie_id r =? k)) eqn:E; [|by left].
  apply andb_prop in E as [E1 E2]. apply Z.eqb_eq in E1, E2. injection H as <-.
  right. exists r. simpl. tauto.
Qed.

Lemma fold_rating_some (rs : list Rating) (u k : Z) (o : option Q) :
  (o <> None \/ exists r, In r rs /\ r_user_id r = u /\ r_movie_id r = k) ->
  fold_left (fun o r => if (r_user_id r =? u) && (r_movie_id r =? k) then Some (r_rating r) else o)
            rs o <> None.
Proof.
  revert o; induction rs as [|r rs IH]; intros o H; simpl.
  - destruct H as [H|(r & [] & _)]; done.
  - apply IH. destruct ((r_user_id r =? u) && (r_movie_id r =? k)) eqn:E; [by left|].
    destruct H as [H|(r' & [<-|Hr'] & H1 & H2)]; [by left| |by right; exists r'].
    rewrite H1, H2, !Z.eqb_refl in E. done.
Qed.

(** A movie the user interacted with has a positive cell in the user's row
    of the frame, unless the user rated it 2 stars or less. *)
Lemma interacted_cell (d : Database) (uid k : Z) :
  In k (interacted_movie_ids d uid) ->
  (0 < frame_value (user_ratings_matrix (ratings d) (favorites d) (watchlist d)) uid k)%Q \/
  In k (_get_excluded_movie_ids d uid).
Proof.
  intros Hk. unfold frame_value, user_ratings_matrix.
  rewrite (strength_fold_implicit w_user_id w_movie_id).
  rewrite (strength_fold_implicit f_user_id f_movie_id).
  rewrite strength_fold_ratings.
  replace (strength ∅ uid k) with (@None Q) by done.
  destruct (fold_left _ (ratings d) None) as [q|] eqn:Ef.
  - apply fold_rating_value in Ef as [Ef|(r & Hr & Hu & Hm & Hq)]; [done|]. simpl.
    destruct (Qlt_le_dec 0 q) as [Hp|Hn]; [by left|right].
    unfold _get_excluded_movie_ids. apply in_map_iff. exists r. split; [done|].
    apply filter_In. split.
    + unfold user_ratings_of. apply filter_In. split; [done|]. by apply Z.eqb_eq.
    + apply Qle_bool_iff. rewrite Hq. eapply Qle_trans; [exact Hn|]. unfold Qle; simpl; lia.
  - left. unfold interacted_movie_ids in Hk. apply in_app_or in Hk as [Hk|Hk].
    { exfalso. apply in_map_iff in Hk as (r & <- & Hr).
      unfold user_ratings_of in Hr. apply filter_In in Hr as [Hr Hu]. apply Z.eqb_eq in Hu.
      apply (fold_rating_some (ratings d) uid (r_movie_id r) None); [|done].
      right. exists r. done. }
    apply in_app_or in Hk as [Hk|Hk].
    + apply in_map_iff in Hk as (f & <- & Hf).
      unfold user_favorites_of in Hf. apply filter_In in Hf as [Hf Hu].
      replace (existsb _ (favorites d)) with true.
      { unfold favorite_strength, Qlt; simpl; lia. }
      symmetry. apply existsb_exists. exists f. rewrite Hu, Z.eqb_refl. done.
    + apply in_map_iff in Hk as (w & <- & Hw).
      unfold user_watchlist_of in Hw. apply filter_In in Hw as [Hw Hu].
      destruct (existsb _ (favorites d)); [unfold favorite_strength, Qlt; simpl; lia|].
      replace (existsb _ (watchlist d)) with true.
      { unfold watchlist_strength, Qlt; simpl; lia. }
      symmetry. apply existsb_exists. exists w. rewrite Hu, Z.eqb_refl. done.
Qed.

(** X8: [get_user_based_recommendations(user_id, n)] returns at most [n]
    catalogue movies and, for a user id other than 0, never one the user
    rated, favorited or put on the watchlist, whatever the similarity
    kernel returns. *)
Theorem user_based_avoids_interacted cos (d : Database) (uid : Z) (n : nat) (Hu : uid <> 0) :
  let res := get_user_based_recommendations cos d uid n in
  (length res <= n)%nat /\
  (forall m, In m res -> In m (movies d) /\ ~ In (movie_id m) (interacted_movie_ids d uid)).
Proof.
  assert (Hpop : forall k, (length (_get_popular_movies d k uid) <= k)%nat /\
    forall m, In m (_get_popular_movies d k uid) ->
      In m (movies d) /\ ~ In (movie_id m) (interacted_movie_ids d uid)).
  { intros k. split; [unfold _get_popular_movies; rewrite length_firstn; lia|].
    intros m Hm. apply popular_In in Hm as (H1 & _ & H3). split; [done|].
    intros Hin. apply (H3 Hu), in_or_app. by left. }
  intros res. subst res. unfold get_user_based_recommendations.
  destruct (length (ratings d) <? 3)%nat; [apply Hpop|].
  destruct (index_of uid _) as [j|] eqn:Hj; [|apply Hpop].
  apply index_of_from_Some in Hj.
  set (M := user_ratings_matrix (ratings d) (favorites d) (watchlist d)).
  set (cols := frame_columns _ _).
  set (L := List.filter (fun c => Qltb 0 (frame_value M uid c)) cols).
  cbv zeta.
  match goal with |- context [map fst (firstn n (sort_by_score ?sc))] =>
    destruct (item_result d L (_get_excluded_movie_ids d uid) n sc) as [Hl Hm];
    [apply (user_based_outer_keys L _ (fun u => map (fun c => (c, frame_value M u c))
             (List.filter (fun c => Qltb 0 (frame_value M u c)) cols))); constructor|] end.
  split; [apply Hl|]. intros m Hin. destruct (Hm m Hin) as (H1 & H2 & H3).
  split; [done|]. intros Hk0. destruct (interacted_cell d uid _ Hk0) as [Hk|Hk]; [|done].
  apply H3. subst L. apply filter_In. split.
  - subst cols. apply frame_columns_spec. exists uid. split; [done|].
    unfold interacted_movie_ids in Hk0.
    rewrite !in_app_iff in Hk0 |- *.
    destruct Hk0 as [Hk0|[Hk0|Hk0]]; apply in_map_iff in Hk0 as (x & Hx & Hx');
      apply filter_In in Hx' as [Hx' Hxu]; apply Z.eqb_eq in Hxu; rewrite <- Hx, <- Hxu.
    + left. by apply (in_map (fun r => (r_user_id r, r_movie_id r))).
    + right; left. by apply (in_map (fun f => (f_user_id f, f_movie_id f))).
    + right; right. by apply (in_map (fun w => (w_user_id w, w_movie_id w))).
  - unfold Qltb. apply negb_true_iff. fold M in Hk.
    destruct (Qle_bool (frame_value M uid (movie_id m)) 0) eqn:E; [|done].
    apply Qle_bool_iff in E. exfalso. exact (Qlt_not_le _ _ Hk E).
Qed.

(** ** Rebuilds and the incremental update counter *)

Lemma build_svd_model_threshold ts (s : Store) :
  incremental_update_threshold (snd (_build_svd_model ts s)) = incremental_update_threshold s.
Proof.
  unfold _build_svd_model.
  destruct (_ <? svd_min_ratings)%nat; [done|].
  destruct (_ <? 2)%nat; [done|].
  destruct (_ <? 2); [done|].
  destruct (ts _ _) as [[uf itf]|]; done.
Qed.

(** Logging a successful [svd] update at [now], later than every logged
    update and not earlier than any rating, leaves no new rating to count. *)
Lemma new_ratings_count_after_log (s : Store) (e : ModelUpdateLog) :
  log_model_type e = "svd" -> log_success e = true ->
  (forall l, In l (model_update_logs (db s)) -> log_created_at l < log_created_at e) ->
  (forall r, In r (ratings (db s)) -> r_timestamp r <= log_created_at e) ->
  new_ratings_count (db (set_logs (model_update_logs (db s) ++ [e]) s)) = 0%nat.
Proof.
  intros Hm Hs Hlater Hts. unfold new_ratings_count, last_successful_update. simpl.
  rewrite List.filter_app. simpl. rewrite Hm, Hs. simpl.
  rewrite sort_desc_snoc_top.
  - simpl. apply length_zero_iff_nil.
    assert (H : forall rs, (forall r, In r rs -> r_timestamp r <= log_created_at e) ->
               List.filter (fun r => log_created_at e <? r_timestamp r) rs = []).
    { induction rs as [|r rs IH]; intros Hr; simpl; [done|].
      replace (log_created_at e <? r_timestamp r) with false
        by (symmetry; apply Z.ltb_ge, Hr; by left).
      apply IH. intros r' Hr'. apply Hr. by right. }
    by apply H.
  - intros l Hl. apply filter_In in Hl as [Hl _]. by apply Hlater.
Qed.

(** X15: An incremental update that reports [updated = True] (so its log
    row was written) after a successful rebuild, logged later than every
    earlier update and after every rating, resets the counter: no rating
    counts as new afterwards, so (with a threshold of at least 1) the next
    [incremental_update] does not rebuild and changes nothing. *)
Theorem incremental_rebuild_resets_counter ts (s : Store) (uid mid : Z) (rating : Q) (now : Z)
    (uid' mid' : Z) (rating' : Q) (now' : Z)
    (Hupd : updated (fst (incremental_update ts uid mid rating now s)) = true)
    (Hok : fst (_build_svd_model ts (snd (invalidate_svd_cache s))) = true)
    (Hlater : forall l, In l (model_update_logs (db s)) -> log_created_at l < now)
    (Hts : forall r, In r (ratings (db s)) -> r_timestamp r <= now)
    (Hthr : 1 <= update_threshold s) :
  let s' := snd (incremental_update ts uid mid rating now s) in
  new_ratings_count (db s') = 0%nat /\
  updated (fst (incremental_update ts uid' mid' rating' now' s')) = false /\
  snd (incremental_update ts uid' mid' rating' now' s') = s'.
Proof.
  intros s'.
  assert (Hfire : update_threshold s <= Z.of_nat (new_ratings_count (db s))).
  { destruct (Z.leb_spec (update_threshold s) (Z.of_nat (new_ratings_count (db s)))) as [H|H];
      [done|].
    revert Hupd. unfold incremental_update. by rewrite (proj2 (Z.leb_gt _ _) H). }
  assert (Hs' : exists e s2, s' = set_logs (model_update_logs (db s2) ++ [e]) s2 /\
                 db s2 = db s /\ incremental_update_threshold s2 = incremental_update_threshold s /\
                 log_model_type e = "svd" /\ log_success e = true /\ log_created_at e = now).
  { subst s'. revert Hupd. rewrite (incremental_update_fired ts s uid mid rating now Hfire).
    pose proof (build_svd_model_db ts (snd (invalidate_svd_cache s))) as Hdb.
    pose proof (build_svd_model_threshold ts (snd (invalidate_svd_cache s))) as Hth.
    revert Hok Hdb Hth.
    destruct (_build_svd_model ts (snd (invalidate_svd_cache s))) as [ok s2].
    cbn [fst snd invalidate_svd_cache db incremental_update_threshold].
    intros -> Hdb Hth.
    destruct (stored_log_row _ _) as [row|] eqn:Hrow; [|discriminate]. intros _.
    rewrite stored_log_row_svd in Hrow.
    destruct (varchar_value 50 _); [|discriminate].
    destruct (varchar_value 100 _); [|discriminate].
    destruct (_ && _); [|discriminate]. injection Hrow as <-.
    exists (mkModelUpdateLog "svd" s0 (new_ratings_count (db s)) s1
              (update_metrics true s2) true now), s2.
    simpl. rewrite Hdb. done. }
  destruct Hs' as (e & s2 & Hs2 & Hdb & Hth & Hm & Hsucc & Hc). rewrite Hs2.
  assert (Hcount : new_ratings_count (db (set_logs (model_update_logs (db s2) ++ [e]) s2)) = 0%nat).
  { apply new_ratings_count_after_log; [done|done| |]; rewrite Hdb, Hc; done. }
  assert (Hthr' : update_threshold (set_logs (model_update_logs (db s2) ++ [e]) s2) =
                  update_threshold s) by (unfold update_threshold; simpl; by rewrite Hth).
  split; [done|].
  unfold incremental_update at 1 2. rewrite Hcount, Hthr'.
  replace (update_threshold s <=? Z.of_nat 0) with false by (symmetry; apply Z.leb_gt; lia).
  done.
Qed.

(** X22: An incremental update that fires but whose log row PostgreSQL
    refuses leaves the database as it was: the result carries the error,
    no entry is written, and every rating still counts as new, so the
    next [incremental_update] fires again (and rebuilds again). *)
Theorem incremental_refused_row_keeps_counter ts (s : Store) (uid mid : Z) (rating : Q) (now : Z)
    (Hfire : update_threshold s <= Z.of_nat (new_ratings_count (db s)))
    (Hrefused : updated (fst (incremental_update ts uid mid rating now s)) = false) :
  let p := incremental_update ts uid mid rating now s in
  error p.1 = true /\ db p.2 = db s /\
  new_ratings_count (db p.2) = new_ratings_count (db s) /\
  update_threshold p.2 <= Z.of_nat (new_ratings_count (db p.2)).
Proof.
  intros p. subst p. revert Hrefused.
  rewrite (incremental_update_fired ts s uid mid rating now Hfire).
  pose proof (build_svd_model_db ts (snd (invalidate_svd_cache s))) as Hdb.
  pose proof (build_svd_model_threshold ts (snd (invalidate_svd_cache s))) as Hth.
  revert Hdb Hth.
  destruct (_build_svd_model ts (snd (invalidate_svd_cache s))) as [ok s2].
  cbn [fst snd invalidate_svd_cache db incremental_update_threshold].
  intros Hdb Hth.
  destruct (stored_log_row _ _) as [row|]; [discriminate|]. intros _. simpl.
  rewrite Hdb. split; [done|]. split; [done|]. split; [done|].
  unfold update_threshold. by rewrite Hth.
Qed.

(** ** Instances of the hypotheses above *)

(** Three users rating four movies (every pair once), enough for a rank-2
    factorisation. *)
Definition db_three_users : Database :=
  mkDatabase [mkUser 1 None None None; mkUser 2 None None None; mkUser 3 None None None]
    [comedy_movie; drama_movie]
    (map (fun i => mkRating (Z.of_nat (1 + i mod 3)) (Z.of_nat (1 + i mod 4)) 4 (Z.of_nat i))
         (seq 0 12))
    [] [] [].

Lemma genre_based_avoids_low_rated_witness :
  (1 <> 0) /\ (length (get_genre_based_recommendations db_fifty_ratings 1 3) <= 3)%nat.
Proof.
  split; [discriminate|].
  exact (proj1 (genre_based_avoids_low_rated db_fifty_ratings 1 3 ltac:(discriminate))).
Defined.

Lemma content_based_avoids_seen_witness :
  (1 <> 0) /\ (length (get_content_based_recommendations db_fifty_ratings 1 3) <= 3)%nat.
Proof.
  split; [discriminate|].
  exact (proj1 (content_based_avoids_seen db_fifty_ratings 1 3 ltac:(discriminate))).
Defined.

Lemma demographic_avoids_low_rated_witness :
  (1 <> 0) /\ (length (get_demographic_recommendations db_fifty_ratings 1 3) <= 3)%nat.
Proof.
  split; [discriminate|].
  exact (proj1 (demographic_avoids_low_rated db_fifty_ratings 1 3 ltac:(discriminate))).
Defined.

Lemma item_based_avoids_rated_witness :
  (1 <> 0) /\ (length (get_item_based_recommendations (fun m => m) db_fifty_ratings 1 3) <= 3)%nat.
Proof.
  split; [discriminate|].
  exact (proj1 (item_based_avoids_rated (fun m => m) db_fifty_ratings 1 3 ltac:(discriminate))).
Defined.

Lemma svd_recommendations_avoid_seen_witness :
  (1 <> 0) /\
  (length (fst (get_svd_recommendations (fun m => m) svd_fit_ok 1 3 (store_of db_three_users)))
     <= 3)%nat.
Proof.
  split; [discriminate|].
  exact (proj1 (svd_recommendations_avoid_seen (fun m => m) svd_fit_ok
                  (store_of db_three_users) 1 3 ltac:(discriminate))).
Defined.

Lemma user_based_avoids_interacted_witness :
  (1 <> 0) /\ (length (get_user_based_recommendations (fun m => m) db_three_users 1 3) <= 3)%nat.
Proof.
  split; [discriminate|].
  exact (proj1 (user_based_avoids_interacted (fun m => m) db_three_users 1 3 ltac:(discriminate))).
Defined.

Lemma build_svd_model_success_witness :
  fst (_build_svd_model svd_fit_ok (store_of db_three_users)) = true /\
  db (snd (_build_svd_model svd_fit_ok (store_of db_three_users))) = db_three_users.
Proof.
  assert (H : fst (_build_svd_model svd_fit_ok (store_of db_three_users)) = true) by (vm_compute; reflexivity).
  split; [exact H|].
  exact (proj1 (build_svd_model_success svd_fit_ok (store_of db_three_users) H)).
Defined.

Lemma force_update_heads_history_witness :
  (1 <= 1)%nat /\
  fu_updated (fst (force_model_update (fun _ _ => None) "manual" 100 (store_of db_fifty_ratings))) = true /\
  head (get_model_update_history
          (db (snd (force_model_update (fun _ _ => None) "manual" 100 (store_of db_fifty_ratings)))) 1) =
    Some (mkModelUpdateLog "svd" "manual" 50 "manual_force_update" None false 100).
Proof.
  assert (Hu : fu_updated (fst (force_model_update (fun _ _ => None) "manual" 100
                                  (store_of db_fifty_ratings))) = true) by (vm_compute; reflexivity).
  split; [lia|]. split; [exact Hu|].
  destruct (proj1 (force_update_heads_history (fun _ _ => None) (store_of db_fifty_ratings) "manual" 100 1
           (fun l (Hl : In l []) => match Hl with end) ltac:(lia)) Hu) as (ut' & Hut & Hh).
  rewrite Hh. vm_compute in Hut. injection Hut as <-. vm_compute. reflexivity.
Defined.

Lemma force_model_update_spec_witness :
  fst (force_model_update svd_fit_ok "full_retrain" 100 (store_of db_varied_ratings)) =
    mkForceUpdateResult true "full_retrain" (Some (mkSvdMetrics 4 5 10)) (Some 50%nat) false /\
  force_model_update svd_fit_ok "warm_start_with_an_update_type_longer_than_fifty_chars" 100
    (store_of db_varied_ratings) =
    (mkForceUpdateResult false "warm_start_with_an_update_type_longer_than_fifty_chars" None None true,
     snd (_build_svd_model svd_fit_ok (snd (invalidate_svd_cache (store_of db_varied_ratings))))).
Proof.
  split.
  - rewrite (proj1 (proj2 (proj2 (force_model_update_spec svd_fit_ok (store_of db_varied_ratings)
                                    "full_retrain" 100))) "full_retrain");
      [vm_compute; reflexivity|reflexivity|vm_compute; discriminate|vm_compute; reflexivity].
  - apply (proj2 (proj2 (proj2 (force_model_update_spec svd_fit_ok (store_of db_varied_ratings)
             "warm_start_with_an_update_type_longer_than_fifty_chars" 100)))).
    left. vm_compute. reflexivity.
Defined.

Lemma tracked_then_clicked_witness :
  fst (track_recommendation db_fifty_ratings [] 1 1 "hybrid" 1 None 7 100) = Some 7 /\
  track_recommendation_click (snd (track_recommendation db_fifty_ratings [] 1 1 "hybrid" 1 None 7 100))
    1 1 120 =
  [mark_clicked 120 (mkRecommendationEvent 7 1 1 "hybrid" None (Some 1)
                       false None false None None false false 100)].
Proof.
  assert (H : fst (track_recommendation db_fifty_ratings [] 1 1 "hybrid" 1 None 7 100) = Some 7)
    by reflexivity.
  split; [exact H|].
  exact (tracked_then_clicked db_fifty_ratings [] 1 1 "hybrid" 1 None 7 100 120 H
           (fun e (He : In e []) => match He with end)).
Defined.

Lemma incremental_rebuild_resets_counter_witness :
  updated (fst (incremental_update svd_fit_ok 1 1 4 100 (store_of db_varied_ratings))) = true /\
  new_ratings_count (db (snd (incremental_update svd_fit_ok 1 1 4 100 (store_of db_varied_ratings))))
    = 0%nat.
Proof.
  assert (Hupd : updated (fst (incremental_update svd_fit_ok 1 1 4 100 (store_of db_varied_ratings)))
                 = true) by (vm_compute; reflexivity).
  split; [exact Hupd|].
  refine (proj1 (incremental_rebuild_resets_counter svd_fit_ok (store_of db_varied_ratings)
                   1 1 4 100 1 1 4 100 Hupd ltac:(vm_compute; reflexivity)
                   (fun l (Hl : In l []) => match Hl with end) _ ltac:(vm_compute; discriminate))).
  intros r Hr. unfold store_of, db_varied_ratings, grid_db in Hr. cbn [db ratings] in Hr.
  apply in_map_iff in Hr as (i & <- & Hi). apply in_seq in Hi. simpl. lia.
Defined.

Lemma incremental_refused_row_keeps_counter_witness :
  update_threshold (store_of db_constant_ratings)
    <= Z.of_nat (new_ratings_count (db (store_of db_constant_ratings))) /\
  updated (fst (incremental_update svd_fit_ok 1 1 4 100 (store_of db_constant_ratings))) = false /\
  error (fst (incremental_update svd_fit_ok 1 1 4 100 (store_of db_constant_ratings))) = true.
Proof.
  assert (Hf : update_threshold (store_of db_constant_ratings)
                 <= Z.of_nat (new_ratings_count (db (store_of db_constant_ratings))))
    by (vm_compute; discriminate).
  assert (Hr : updated (fst (incremental_update svd_fit_ok 1 1 4 100 (store_of db_constant_ratings)))
               = false) by (vm_compute; reflexivity).
  split; [exact Hf|]. split; [exact Hr|].
  exact (proj1 (incremental_refused_row_keeps_counter svd_fit_ok (store_of db_constant_ratings)
                  1 1 4 100 Hf Hr)).
Defined.
